(** * Endorsement submission client (package [provisioning])

    A shallow embedding of [provisioning/provisioning.go]: the submission
    configuration, the session resource decoder, the submit controller
    [Run] and the poller [pollForSubmissionCompletion], together with the
    properties the specification states about them.

    Go values are modelled as follows.
    - [string] is [string]; [[]byte] is [list byte]; [int]/[int64] are [Z].
    - [error] is an inductive type that keeps the message and the error
      wrapped with [%w]; a Go result pair [(T, error)] returned by the
      functions of this package is a pair of options, exactly as in Go.
    - [http.Header] is a [gmap string (list string)].
    - A [*common.Client] is an index into a heap of client objects.
    - The outside world (HTTP server, clock, log) is an explicit state
      [World]: the heap of clients plus the chronological list of effects
      performed so far.  What the network answers is given by the oracles
      of an environment [Env], which may depend on the whole history. *)

From stdpp Require Import base strings list gmap pretty.
From Equations Require Import Equations.
From Stdlib Require Import ZArith Lia.
From Stdlib.Strings Require Import Byte.

Local Open Scope Z_scope.
Local Open Scope string_scope.

(** ** Go errors *)

(** An error made by [errors.New], by [fmt.Errorf] without [%w], or by
    [fmt.Errorf] with a wrapped error. *)
Inductive error : Type :=
| errors_New (msg : string)
| fmt_Errorf (msg : string)
| fmt_Errorf_wrap (msg : string) (wrapped : error).

(** [err.Error()] *)
Definition Error (e : error) : string :=
  match e with
  | errors_New msg => msg
  | fmt_Errorf msg => msg
  | fmt_Errorf_wrap msg _ => msg
  end.

(** [errors.Unwrap(err)] *)
Definition Unwrap (e : error) : option error :=
  match e with
  | fmt_Errorf_wrap _ wrapped => Some wrapped
  | _ => None
  end.

(** [fmt.Errorf(prefix + "%w", err)] *)
Definition Errorf_w (prefix : string) (err : error) : error :=
  fmt_Errorf_wrap (prefix +:+ Error err) err.

(** ** Data model *)

(** [auth.IAuthenticator]: an opaque handle on an implementation. *)
Inductive IAuthenticator : Type := Authenticator (id : nat).

(** *** Package [net/http], as far as this package uses it *)
Module http.

Definition StatusOK : Z := 200.
Definition StatusCreated : Z := 201.

(** [http.Response]. [ContentLength] is the declared length of the body;
    [-1] means that the length is unknown. [Status] is the status line,
    such as [200 OK]. *)
Record Response : Type := {
  StatusCode : Z;
  Status : string;
  ContentLength : Z;
  Header : gmap string (list string);
  Body : string
}.

(** [h.Get(key)]: the first value stored under [key], or the empty string *)
Definition Header_Get (h : gmap string (list string)) (key : string) : string :=
  match h !! key with
  | Some (v :: _) => v
  | _ => ""
  end.

(** How an [http.Client] reaches the server: its [Transport] field. *)
Inductive Transport : Type :=
| PlainTransport
| TLSTransport (cacerts : list string)
| InsecureTLSTransport.

End http.

(** *** Package [common] *)
Module common.

(** Modelled from the spec: the constants [APIStatusSuccess],
    [APIStatusFailed] and [APIStatusProcessing] of package [common] are
    not part of the sources; the specification gives the three states
    [success], [failed] and [processing], and the tests of this package
    use these very strings. *)
Definition APIStatusSuccess : string := "success".
Definition APIStatusFailed : string := "failed".
Definition APIStatusProcessing : string := "processing".

(** [common.Client] *)
Record Client : Type := {
  HTTPClient : http.Transport;
  Auth : option IAuthenticator
}.

(** [*common.Client]: an address in the heap of clients *)
Definition ClientRef : Type := nat.

End common.

(** *** JSON texts

    Modelled from the spec: the specification tells malformed JSON from
    well-formed JSON, and the sources hold no parser (the decoder is
    [common.DecodeJSONBody], over Go's [encoding/json]). Well-formed is
    taken as RFC 8259 has it: [parse] is a scanner that cuts the text into
    tokens and a pushdown automaton that builds the value of the whole
    text. Strings are decoded as [encoding/json] decodes them. *)
Module json.

Local Open Scope N_scope.

#[local] Unset Elimination Schemes.
Inductive value : Type :=
| JNull
| JBool (b : bool)
| JNumber (lexeme : string)
| JString (s : string)
| JArray (items : list value)
| JObject (members : list (string * value)).
#[local] Set Elimination Schemes.

Inductive token : Type :=
| TLBrace | TRBrace | TLBracket | TRBracket | TColon | TComma
| TString (s : string)
| TNumber (lexeme : string)
| TTrue | TFalse | TNull.

Definition code (c : Ascii.ascii) : N := Ascii.N_of_ascii c.
Definition chr (n : N) : Ascii.ascii := Ascii.ascii_of_N n.

Definition between (lo hi n : N) : bool := (N.leb lo n && N.leb n hi)%bool.

Definition isDigit (c : Ascii.ascii) : bool := between 48 57 (code c).
Definition isDigit19 (c : Ascii.ascii) : bool := between 49 57 (code c).
Definition isChar (n : N) (c : Ascii.ascii) : bool := N.eqb (code c) n.
Definition isExpMark (c : Ascii.ascii) : bool := (isChar 101 c || isChar 69 c)%bool.
Definition isSign (c : Ascii.ascii) : bool := (isChar 43 c || isChar 45 c)%bool.

(** White space between tokens: space, tab, line feed, carriage return. *)
Definition isSpace (c : Ascii.ascii) : bool :=
  (isChar 32 c || isChar 9 c || isChar 10 c || isChar 13 c)%bool.

(** **** Numbers: an optional minus sign; zero, or a digit other than zero
    followed by digits; optionally a point and digits; optionally an
    exponent mark, a sign and digits. *)
Inductive numstate : Type :=
| NMinus | NZero | NInt | NDot | NFrac | NExpMark | NExpSign | NExp.

Definition numStep (st : numstate) (c : Ascii.ascii) : option numstate :=
  match st with
  | NMinus => if isChar 48 c then Some NZero else if isDigit19 c then Some NInt else None
  | NZero => if isChar 46 c then Some NDot else if isExpMark c then Some NExpMark else None
  | NInt =>
      if isDigit c then Some NInt
      else if isChar 46 c then Some NDot
      else if isExpMark c then Some NExpMark else None
  | NDot => if isDigit c then Some NFrac else None
  | NFrac => if isDigit c then Some NFrac else if isExpMark c then Some NExpMark else None
  | NExpMark => if isSign c then Some NExpSign else if isDigit c then Some NExp else None
  | NExpSign => if isDigit c then Some NExp else None
  | NExp => if isDigit c then Some NExp else None
  end.

Definition numDone (st : numstate) : bool :=
  match st with
  | NZero | NInt | NFrac | NExp => true
  | _ => false
  end.

(** **** Strings *)

(** What a string literal is made of: a byte of the text, or the 16-bit
    unit of a [\uXXXX] escape. *)
Inductive item : Type :=
| Raw (c : Ascii.ascii)
| Unit16 (u : N).

(** The UTF-8 encoding of a code point. *)
Definition utf8 (cp : N) : list Ascii.ascii :=
  if N.ltb cp 128 then [chr cp]
  else if N.ltb cp 2048 then [chr (192 + cp / 64); chr (128 + cp mod 64)]
  else if N.ltb cp 65536 then
    [chr (224 + cp / 4096); chr (128 + (cp / 64) mod 64); chr (128 + cp mod 64)]
  else
    [chr (240 + cp / 262144); chr (128 + (cp / 4096) mod 64);
     chr (128 + (cp / 64) mod 64); chr (128 + cp mod 64)].

(** U+FFFD, which stands for what cannot be decoded. *)
Definition replacement : list Ascii.ascii := utf8 65533.

(** The ranges in which the bytes after a UTF-8 lead byte must lie. *)
Definition leadRanges (c : N) : option (list (N * N)) :=
  if between 194 223 c then Some [(128, 191)]
  else if N.eqb c 224 then Some [(160, 191); (128, 191)]
  else if (between 225 236 c || between 238 239 c)%bool then Some [(128, 191); (128, 191)]
  else if N.eqb c 237 then Some [(128, 159); (128, 191)]
  else if N.eqb c 240 then Some [(144, 191); (128, 191); (128, 191)]
  else if between 241 243 c then Some [(128, 191); (128, 191); (128, 191)]
  else if N.eqb c 244 then Some [(128, 143); (128, 191); (128, 191)]
  else None.

(** A multi-byte sequence under way: the bytes read and the ranges of the
    bytes still to come. *)
Definition pending : Type := list Ascii.ascii * list (N * N).

(** A sequence that breaks off is replaced byte by byte. *)
Definition flush (p : option pending) : list Ascii.ascii :=
  match p with
  | Some (got, _) => concat (map (fun _ => replacement) got)
  | None => []
  end.

Definition startRaw (c : Ascii.ascii) : list Ascii.ascii * option pending :=
  if N.ltb (code c) 128 then ([c], None)
  else match leadRanges (code c) with
       | Some need => ([], Some ([c], need))
       | None => (replacement, None)
       end.

Definition onRaw (p : option pending) (c : Ascii.ascii)
  : list Ascii.ascii * option pending :=
  match p with
  | Some (got, (lo, hi) :: need) =>
      if between lo hi (code c) then
        match need with
        | [] => ((got ++ [c])%list, None)
        | _ => ([], Some ((got ++ [c])%list, need))
        end
      else
        let '(out, p') := startRaw c in ((flush p ++ out)%list, p')
  | _ => let '(out, p') := startRaw c in ((flush p ++ out)%list, p')
  end.

Definition isSurrogate (u : N) : bool := between 55296 57343 u.
Definition isPair (u1 u2 : N) : bool := (between 55296 56319 u1 && between 56320 57343 u2)%bool.
Definition pairPoint (u1 u2 : N) : N := 65536 + (u1 - 55296) * 1024 + (u2 - 56320).

(** The bytes a string literal denotes: escapes are replaced, a surrogate
    pair of escapes gives one code point, and whatever is not valid UTF-8
    or not a valid pair gives U+FFFD. *)
Fixpoint decodeItems (p : option pending) (l : list item) : list Ascii.ascii :=
  match l with
  | [] => flush p
  | Raw c :: rest =>
      let '(out, p') := onRaw p c in (out ++ decodeItems p' rest)%list
  | Unit16 u :: rest =>
      (flush p ++
       if isSurrogate u then
         match rest with
         | Unit16 u2 :: rest2 =>
             if isPair u u2 then (utf8 (pairPoint u u2) ++ decodeItems None rest2)%list
             else (replacement ++ decodeItems None rest)%list
         | _ => (replacement ++ decodeItems None rest)%list
         end
       else (utf8 u ++ decodeItems None rest)%list)%list
  end.

Definition hexValue (c : Ascii.ascii) : option N :=
  let n := code c in
  if between 48 57 n then Some (n - 48)
  else if between 97 102 n then Some (n - 87)
  else if between 65 70 n then Some (n - 55)
  else None.

(** **** The scanner *)
Inductive lstate : Type :=
| LStart
| LLit (rest : list Ascii.ascii) (t : token)
| LNum (st : numstate) (acc : list Ascii.ascii)
| LStr (acc : list item)
| LEsc (acc : list item)
| LHex (acc : list item) (more : nat) (u : N).

Definition text (racc : list Ascii.ascii) : string :=
  String.string_of_list_ascii (rev racc).

Definition chars (s : string) : list Ascii.ascii := String.list_ascii_of_string s.

(** The first character of a token. *)
Definition onStart (c : Ascii.ascii) : option (lstate * list token) :=
  if isSpace c then Some (LStart, [])
  else if isChar 123 c then Some (LStart, [TLBrace])
  else if isChar 125 c then Some (LStart, [TRBrace])
  else if isChar 91 c then Some (LStart, [TLBracket])
  else if isChar 93 c then Some (LStart, [TRBracket])
  else if isChar 58 c then Some (LStart, [TColon])
  else if isChar 44 c then Some (LStart, [TComma])
  else if isChar 34 c then Some (LStr [], [])
  else if isChar 45 c then Some (LNum NMinus [c], [])
  else if isChar 48 c then Some (LNum NZero [c], [])
  else if isDigit19 c then Some (LNum NInt [c], [])
  else if isChar 116 c then Some (LLit (chars "rue") TTrue, [])
  else if isChar 102 c then Some (LLit (chars "alse") TFalse, [])
  else if isChar 110 c then Some (LLit (chars "ull") TNull, [])
  else None.

Definition escaped (c : Ascii.ascii) : option Ascii.ascii :=
  if isChar 34 c then Some c
  else if isChar 92 c then Some c
  else if isChar 47 c then Some c
  else if isChar 98 c then Some (chr 8)
  else if isChar 102 c then Some (chr 12)
  else if isChar 110 c then Some (chr 10)
  else if isChar 114 c then Some (chr 13)
  else if isChar 116 c then Some (chr 9)
  else None.

Definition lexStep (st : lstate) (c : Ascii.ascii) : option (lstate * list token) :=
  match st with
  | LStart => onStart c
  | LLit [] _ => None
  | LLit (c1 :: rest) t =>
      if Ascii.eqb c c1 then
        match rest with
        | [] => Some (LStart, [t])
        | _ => Some (LLit rest t, [])
        end
      else None
  | LNum ns acc =>
      match numStep ns c with
      | Some ns' => Some (LNum ns' (c :: acc), [])
      | None =>
          if numDone ns then
            match onStart c with
            | Some (st', ts) => Some (st', TNumber (text acc) :: ts)
            | None => None
            end
          else None
      end
  | LStr acc =>
      if isChar 34 c then
        Some (LStart, [TString (String.string_of_list_ascii (decodeItems None (rev acc)))])
      else if isChar 92 c then Some (LEsc acc, [])
      else if N.ltb (code c) 32 then None
      else Some (LStr (Raw c :: acc), [])
  | LEsc acc =>
      if isChar 117 c then Some (LHex acc 4%nat 0, [])
      else match escaped c with
           | Some e => Some (LStr (Raw e :: acc), [])
           | None => None
           end
  | LHex acc more u =>
      match hexValue c with
      | Some d =>
          match more with
          | S O => Some (LStr (Unit16 (16 * u + d) :: acc), [])
          | S more' => Some (LHex acc more' (16 * u + d), [])
          | O => None
          end
      | None => None
      end
  end.

Fixpoint lex (st : lstate) (s : string) : option (list token) :=
  match s with
  | EmptyString =>
      match st with
      | LStart => Some []
      | LNum ns acc => if numDone ns then Some [TNumber (text acc)] else None
      | _ => None
      end
  | String c s' =>
      match lexStep st c with
      | Some (st', ts) =>
          match lex st' s' with
          | Some more => Some (ts ++ more)%list
          | None => None
          end
      | None => None
      end
  end.

(** **** The parser: a pushdown automaton over the tokens *)

(** An array or an object under construction, with what it holds so far,
    last first. *)
Inductive frame : Type :=
| FArray (done : list value)
| FObject (done : list (string * value)) (key : string).

(** What may come next: a value (or, right after an opening bracket, the
    closing one), a member name (or, right after an opening brace, the
    closing one), the colon after a member name, or what may follow a
    complete value. *)
Inductive mode : Type :=
| MValue (first : bool)
| MKey (first : bool) (done : list (string * value))
| MColon (done : list (string * value)) (key : string)
| MAfter (v : value).

Definition parseStep (stack : list frame) (m : mode) (t : token)
  : option (list frame * mode) :=
  match m with
  | MValue first =>
      match t with
      | TLBrace => Some (stack, MKey true [])
      | TLBracket => Some (FArray [] :: stack, MValue true)
      | TRBracket =>
          match first, stack with
          | true, FArray [] :: stack' => Some (stack', MAfter (JArray []))
          | _, _ => None
          end
      | TString s => Some (stack, MAfter (JString s))
      | TNumber n => Some (stack, MAfter (JNumber n))
      | TTrue => Some (stack, MAfter (JBool true))
      | TFalse => Some (stack, MAfter (JBool false))
      | TNull => Some (stack, MAfter JNull)
      | _ => None
      end
  | MKey first done =>
      match t with
      | TString k => Some (stack, MColon done k)
      | TRBrace => if first then Some (stack, MAfter (JObject [])) else None
      | _ => None
      end
  | MColon done k =>
      match t with
      | TColon => Some (FObject done k :: stack, MValue false)
      | _ => None
      end
  | MAfter v =>
      match stack, t with
      | FArray done :: stack', TComma => Some (FArray (v :: done) :: stack', MValue false)
      | FArray done :: stack', TRBracket => Some (stack', MAfter (JArray (rev (v :: done))))
      | FObject done k :: stack', TComma => Some (stack', MKey false ((k, v) :: done))
      | FObject done k :: stack', TRBrace =>
          Some (stack', MAfter (JObject (rev ((k, v) :: done))))
      | _, _ => None
      end
  end.

Fixpoint parseTokens (stack : list frame) (m : mode) (ts : list token) : option value :=
  match ts with
  | [] =>
      match stack, m with
      | [], MAfter v => Some v
      | _, _ => None
      end
  | t :: ts' =>
      match parseStep stack m t with
      | Some (stack', m') => parseTokens stack' m' ts'
      | None => None
      end
  end.

(** [parse s] is the JSON value that the whole of [s] denotes, or [None]
    when [s] is not a well-formed JSON text. *)
Definition parse (s : string) : option value :=
  match lex LStart s with
  | Some ts => parseTokens [] (MValue false) ts
  | None => None
  end.

End json.

(** *** Package [provisioning] *)

Definition sessionMediaType : string :=
  "application/vnd.veraison.provisioning-session+json".

(** [SubmitSession] models the session media type. [FailureReason] is a
    [*string]. *)
Record SubmitSession : Type := {
  Status : string;
  Expiry : string;
  FailureReason : option string
}.

(** [SubmitConfig] holds the context of an endorsement submission session *)
Record SubmitConfig : Type := {
  CACerts : list string;
  Client : option common.ClientRef;
  SubmitURI : string;
  Auth : option IAuthenticator;
  DeleteSession : bool;
  UseTLS : bool;
  IsInsecure : bool
}.

(** [url.URL], as far as this package looks at it *)
Record URL : Type := {
  Scheme : string
}.

(** [u.IsAbs()] *)
Definition IsAbs (u : URL) : bool := negb (String.eqb (Scheme u) "").

(** ** The outside world *)

Inductive Request : Type :=
| ReqPost (c : common.ClientRef) (body : list Byte.byte) (contentType accept uri : string)
| ReqGet (c : common.ClientRef) (uri : string)
| ReqDelete (c : common.ClientRef) (uri : string).

Inductive Event : Type :=
| EvRequest (r : Request)
| EvSleep (d : Z)
| EvLog (msg : string).

Record World : Type := {
  heap : list common.Client;
  trace : list Event
}.

Definition emit (e : Event) (w : World) : World :=
  {| heap := heap w; trace := trace w ++ [e] |}.

(** What lies outside the package: the constants of package [common], the
    pieces of the Go library the code calls, and the answers of the
    network. *)
Record Env : Type := {
  MaxAttempts : Z;
  PollPeriod : Z;
  (** [strconv.Quote], the rendering of [%q] *)
  Quote : string -> string;
  (** [url.Parse] *)
  url_Parse : string -> error + URL;
  (** resolution of a [Location] value against a base URI *)
  url_Resolve : string -> string -> error + string;
  (** [common.DecodeJSONBody] into a fresh [SubmitSession] *)
  DecodeJSONBody : http.Response -> error + SubmitSession;
  (** loading of the CA certificates for a TLS client *)
  LoadCACerts : list string -> option error;
  (** the answer to a POST or GET, given everything that happened before *)
  http_reply : World -> Request -> error + http.Response;
  (** the result of [DeleteResource], given everything that happened before *)
  delete_reply : World -> Request -> option error
}.

(** ** The session record on the wire *)















(** ** Computations: state passing over [World], with Go panics *)

Inductive outcome (A : Type) : Type :=
| Returns (w : World) (a : A)
| Panics (w : World).
Arguments Returns {A} w a.
Arguments Panics {A} w.

Definition M (A : Type) : Type := World -> outcome A.

Definition ret {A} (a : A) : M A := fun w => Returns w a.

Definition bind {A B} (m : M A) (k : A -> M B) : M B :=
  fun w => match m w with
           | Returns w' a => k a w'
           | Panics w' => Panics w'
           end.

Definition panic {A} : M A := fun w => Panics w.

Notation "'let*' x ':=' m 'in' k" := (bind m (fun x => k))
  (at level 10, x pattern, m at level 100, k at level 200).

(** dereference of a possibly nil pointer *)
Definition deref {A} (p : option A) : M A :=
  match p with
  | Some a => ret a
  | None => panic
  end.

Section Provisioning.

Context (E : Env).

(** *** Package [common] and the Go library *)

Definition alloc (cl : common.Client) : M common.ClientRef :=
  fun w => Returns {| heap := heap w ++ [cl]; trace := trace w |} (length (heap w)).

(** Modelled from the spec: [common.NewClient], [common.NewInsecureTLSClient]
    and [common.NewTLSClient] are not part of the sources. Following the
    transport provider of the specification they build a plain client, a TLS
    client without certificate verification, and a TLS client trusting the
    system and the given CA certificates; only the last one can fail, when
    the certificates cannot be loaded. *)
Definition NewClient (a : option IAuthenticator) : M common.ClientRef :=
  alloc {| common.HTTPClient := http.PlainTransport; common.Auth := a |}.

Definition NewInsecureTLSClient (a : option IAuthenticator) : M common.ClientRef :=
  alloc {| common.HTTPClient := http.InsecureTLSTransport; common.Auth := a |}.

Definition NewTLSClient (a : option IAuthenticator) (certs : list string)
  : M (option common.ClientRef * option error) :=
  match LoadCACerts E certs with
  | Some err => ret (None, Some err)
  | None =>
      let* c := alloc {| common.HTTPClient := http.TLSTransport certs; common.Auth := a |} in
      ret (Some c, None)
  end.

(** Modelled from the spec: [common.Client.PostResource] is not part of the
    sources. It issues one POST of the body to the URI with the given
    [Content-Type] and [Accept] headers and hands back the response, or the
    error met when the request could not be sent. *)
Definition PostResource (c : common.ClientRef) (body : list Byte.byte)
    (contentType accept uri : string) : M (error + http.Response) :=
  fun w =>
    let rq := ReqPost c body contentType accept uri in
    Returns (emit (EvRequest rq) w) (http_reply E w rq).

(** [cfg.Client.HTTPClient.Get(uri)] *)
Definition HTTPClient_Get (c : common.ClientRef) (uri : string) : M (error + http.Response) :=
  fun w =>
    let rq := ReqGet c uri in
    Returns (emit (EvRequest rq) w) (http_reply E w rq).

(** Modelled from the spec: [common.Client.DeleteResource] is not part of
    the sources. It issues one DELETE on the URI and reports an error or
    nil. *)
Definition DeleteResource (c : common.ClientRef) (uri : string) : M (option error) :=
  fun w =>
    let rq := ReqDelete c uri in
    Returns (emit (EvRequest rq) w) (delete_reply E w rq).

Definition time_Sleep (d : Z) : M unit :=
  fun w => Returns (emit (EvSleep d) w) tt.

Definition log_Printf (msg : string) : M unit :=
  fun w => Returns (emit (EvLog msg) w) tt.

(** Modelled from the spec: [common.ExtractLocation] is not part of the
    sources. It takes the follow-up URI from the [Location] header of the
    response, resolved against the base URI, and fails when the header is
    missing (with the message the tests of this package expect) or cannot
    be resolved. *)
Definition ExtractLocation (res : http.Response) (base : string) : error + string :=
  let loc := http.Header_Get (http.Header res) "Location" in
  if String.eqb loc "" then inl (errors_New "no Location header found in response")
  else url_Resolve E base loc.

(** *** Package [provisioning] *)

(** [SetSubmitURI] sets the URI parameter. The receiver is a pointer: the
    configuration after the call is returned next to the error. *)
Definition SetSubmitURI (cfg : SubmitConfig) (uri : string)
  : SubmitConfig * option error :=
  match url_Parse E uri with
  | inl err => (cfg, Some (Errorf_w "malformed URI: " err))
  | inr u =>
      if negb (IsAbs u) then (cfg, Some (errors_New "uri is not absolute"))
      else
        ({| CACerts := CACerts cfg;
            Client := Client cfg;
            SubmitURI := uri;
            Auth := Auth cfg;
            DeleteSession := DeleteSession cfg;
            UseTLS := String.eqb (Scheme u) "https";
            IsInsecure := IsInsecure cfg |}, None)
  end.

Definition check (cfg : SubmitConfig) : option error :=
  if String.eqb (SubmitURI cfg) "" then
    Some (errors_New "bad configuration: no API endpoint")
  else None.

Definition set_Client (cfg : SubmitConfig) (c : option common.ClientRef) : SubmitConfig :=
  {| CACerts := CACerts cfg;
     Client := c;
     SubmitURI := SubmitURI cfg;
     Auth := Auth cfg;
     DeleteSession := DeleteSession cfg;
     UseTLS := UseTLS cfg;
     IsInsecure := IsInsecure cfg |}.

(** [initClient] attaches the default client if none was supplied. The
    receiver is a pointer: the configuration after the call is returned next
    to the error. *)
Definition initClient (cfg : SubmitConfig) : M (SubmitConfig * option error) :=
  match Client cfg with
  | Some _ => ret (cfg, None)
  | None =>
      if negb (UseTLS cfg) then
        let* c := NewClient (Auth cfg) in
        ret (set_Client cfg (Some c), None)
      else if IsInsecure cfg then
        let* c := NewInsecureTLSClient (Auth cfg) in
        ret (set_Client cfg (Some c), None)
      else
        let* r := NewTLSClient (Auth cfg) (CACerts cfg) in
        let '(c, err) := r in
        ret (set_Client cfg c, err)
  end.

Definition sessionFromResponse (res : http.Response)
  : option SubmitSession * option error :=
  if Z.eqb (http.ContentLength res) 0 then (None, Some (errors_New "empty body"))
  else
    let ct := http.Header_Get (http.Header res) "Content-Type" in
    if negb (String.eqb ct sessionMediaType) then
      (None, Some (fmt_Errorf
        ("session resource with unexpected content type: " +:+ Quote E ct)))
    else
      match DecodeJSONBody E res with
      | inl err => (None, Some (Errorf_w "failure decoding session resource: " err))
      | inr j => (Some j, None)
      end.

(** The message built on a [failed] session, in [Run] and in the poller. *)
Definition submissionFailed (j : SubmitSession) : error :=
  errors_New
    (match FailureReason j with
     | Some reason => "submission failed" +:+ (": " +:+ reason)
     | None => "submission failed"
     end).

(** One pass through the body of the loop of [pollForSubmissionCompletion]:
    [Some r] when the body executes [return r], [None] when it falls
    through to the next iteration. *)
Definition pollOnce (client : common.ClientRef) (uri : string)
  : M (option (option SubmitSession * option error)) :=
  let* r := HTTPClient_Get client uri in
  match r with
  | inl err => ret (Some (None, Some (Errorf_w "session resource fetch failed: " err)))
  | inr res =>
      if negb (Z.eqb (http.StatusCode res) http.StatusOK) then
        ret (Some (None, Some (fmt_Errorf
          ("session resource fetch returned an unexpected status: " +:+ http.Status res))))
      else
        match sessionFromResponse res with
        | (_, Some err) => ret (Some (None, Some err))
        | (None, None) => panic
        | (Some j, None) =>
            if String.eqb (Status j) common.APIStatusSuccess then
              ret (Some (Some j, None))
            else if String.eqb (Status j) common.APIStatusFailed then
              ret (Some (None, Some (submissionFailed j)))
            else if String.eqb (Status j) common.APIStatusProcessing then
              let* _ := time_Sleep (PollPeriod E) in
              ret None
            else
              ret (Some (None, Some (fmt_Errorf
                ("unexpected session state " +:+ Quote E (Status j)
                 +:+ " in 200 response"))))
        end
  end.

(** [for attempt := ...; attempt < common.MaxAttempts; attempt++ { ... }]
    followed by the return after the loop. *)
Equations? pollLoop (client : common.ClientRef) (uri : string) (attempt : Z) (w : World)
  : outcome (option SubmitSession * option error)
  by wf (Z.to_nat (MaxAttempts E - attempt)) lt :=
pollLoop client uri attempt w with Z_lt_dec attempt (MaxAttempts E) := {
  | left _ with pollOnce client uri w := {
      | Returns w' (Some r) => Returns w' r
      | Returns w' None => pollLoop client uri (attempt + 1) w'
      | Panics w' => Panics w' }
  | right _ =>
      Returns w (None, Some (fmt_Errorf
        "polling attempts exhausted, session resource state still not complete")) }.
Proof. lia. Qed.

(** [pollForSubmissionCompletion] polls the supplied URI while the resource
    state is "processing". *)
Definition pollForSubmissionCompletion (cfg : SubmitConfig) (uri : string)
  : M (option SubmitSession * option error) :=
  let* client := deref (Client cfg) in
  pollLoop client uri 1.

(** [Run] implements the endorsement submission API. The receiver is a
    value: [cfg] is the callee's own copy of the configuration, which
    [initClient] updates. *)
Definition Run (cfg : SubmitConfig) (endorsement : list Byte.byte) (mediaType : string)
  : M (option SubmitSession * option error) :=
  match check cfg with
  | Some err => ret (None, Some err)
  | None =>
  (* attach the default client if the user has not supplied one *)
  let* r := initClient cfg in
  let '(cfg, ierr) := r in
  match ierr with
  | Some err => ret (None, Some err)
  | None =>
  (* POST endorsement to the /submit endpoint *)
  let* client := deref (Client cfg) in
  let* r := PostResource client endorsement mediaType sessionMediaType (SubmitURI cfg) in
  match r with
  | inl err => ret (None, Some (Errorf_w "submit request failed: " err))
  | inr res =>
  if negb (Z.eqb (http.StatusCode res) http.StatusOK)
     && negb (Z.eqb (http.StatusCode res) http.StatusCreated) then
    ret (None, Some (fmt_Errorf
      ("unexpected HTTP response code " +:+ pretty (http.StatusCode res))))
  else
  match sessionFromResponse res with
  | (_, Some err) => ret (None, Some err)
  | (None, None) => panic
  | (Some j, None) =>
  if Z.eqb (http.StatusCode res) http.StatusOK then
    (* sync *)
    if String.eqb (Status j) common.APIStatusSuccess then ret (Some j, None)
    else if String.eqb (Status j) common.APIStatusFailed then
      ret (None, Some (submissionFailed j))
    else
      ret (None, Some (fmt_Errorf
        ("unexpected session state " +:+ Quote E (Status j) +:+ " in 200 response")))
  else
  (* async: expect 'processing' status *)
  if negb (String.eqb (Status j) common.APIStatusProcessing) then
    ret (None, Some (fmt_Errorf
      ("unexpected session state " +:+ Quote E (Status j) +:+ " in 201 response")))
  else
  match ExtractLocation res (SubmitURI cfg) with
  | inl err =>
      ret (None, Some (Errorf_w "cannot determine URI for the session resource: " err))
  | inr sessionURI =>
  let* result := pollForSubmissionCompletion cfg sessionURI in
  (* if requested, explicitly call DELETE on the session resource *)
  let* _ :=
    (if DeleteSession cfg then
       let* client := deref (Client cfg) in
       let* delErr := DeleteResource client sessionURI in
       match delErr with
       | Some e => log_Printf ("DELETE " +:+ sessionURI +:+ " failed: " +:+ Error e)
       | None => ret tt
       end
     else ret tt) in
  ret result
  end end end end end.

(** *** Vocabulary of the properties *)

(** What a computation hands back, if it returns. *)
Definition returned {A} (o : outcome A) : option A :=
  match o with
  | Returns _ a => Some a
  | Panics _ => None
  end.

(** The world a computation leaves behind. *)
Definition worldOf {A} (o : outcome A) : World :=
  match o with
  | Returns w _ => w
  | Panics w => w
  end.

(** The heap after [initClient] has run on [cfg] in world [w]. *)
Definition heapAfterInit (cfg : SubmitConfig) (w : World) : list common.Client :=
  heap (worldOf (initClient cfg w)).

(** The error [initClient] reports on [cfg] in world [w], if any. *)
Definition initError (cfg : SubmitConfig) (w : World) : option error :=
  match initClient cfg w with
  | Returns _ (_, ierr) => ierr
  | Panics _ => None
  end.

(** A result pair is settled when it is either a record of a successful
    session with a nil error, or a nil record with an error. *)
Definition settled (r : option SubmitSession * option error) : Prop :=
  (exists j, r = (Some j, None) /\ Status j = common.APIStatusSuccess)
  \/ (exists err, r = (None, Some err)).

(** [Run] on [cfg] in world [w] receives [res] in answer to its POST: the
    submit URI is set, [initClient] succeeds, leaving the configuration
    [cfg1] with the client [client] in world [w1], and the server answers
    the POST sent from there with [res]. *)
Definition submitted (cfg : SubmitConfig) (e : list Byte.byte) (m : string) (w : World)
    (cfg1 : SubmitConfig) (client : common.ClientRef) (w1 : World) (res : http.Response) : Prop :=
  SubmitURI cfg <> EmptyString
  /\ initClient cfg w = Returns w1 (cfg1, None)
  /\ Client cfg1 = Some client
  /\ http_reply E w1 (ReqPost client e m sessionMediaType (SubmitURI cfg)) = inr res.

(** The world right after that POST. *)
Definition posted (cfg : SubmitConfig) (e : list Byte.byte) (m : string)
    (client : common.ClientRef) (w1 : World) : World :=
  emit (EvRequest (ReqPost client e m sessionMediaType (SubmitURI cfg))) w1.

(** The answer to a GET sent in world [w] is a 200 response that decodes to
    the session [j]. *)
Definition getYields (client : common.ClientRef) (uri : string) (w : World)
    (j : SubmitSession) : Prop :=
  exists res,
    http_reply E w (ReqGet client uri) = inr res
    /\ http.StatusCode res = http.StatusOK
    /\ sessionFromResponse res = (Some j, None).

Definition getProcessing (client : common.ClientRef) (uri : string) (w : World) : Prop :=
  exists j, getYields client uri w j /\ Status j = common.APIStatusProcessing.

(** The world after [k] rounds of GET-then-sleep. *)
Fixpoint idle (client : common.ClientRef) (uri : string) (k : nat) (w : World) : World :=
  match k with
  | O => w
  | S k' =>
      idle client uri k'
        (emit (EvSleep (PollPeriod E)) (emit (EvRequest (ReqGet client uri)) w))
  end.

(** The number of iterations the loop of the poller can make. *)
Definition pollBudget : nat := Z.to_nat (MaxAttempts E - 1).

Definition pollExhausted : error :=
  fmt_Errorf "polling attempts exhausted, session resource state still not complete".

End Provisioning.

(** *** The setters of [SubmitConfig] *)

(** [p.Auth = a] through a client pointer [p]. An address outside the heap
    is not a pointer a Go program can hold; the model panics on it. *)
Definition store_Auth (p : common.ClientRef) (a : option IAuthenticator) : M unit :=
  fun w =>
    match heap w !! p with
    | Some cl =>
        Returns
          {| heap := <[p := {| common.HTTPClient := common.HTTPClient cl;
                               common.Auth := a |}]> (heap w);
             trace := trace w |} tt
    | None => Panics w
    end.

(** [SetClient] sets the HTTP(s) client connection configuration. The
    receiver is a pointer: the configuration after the call is returned
    next to the error. *)
Definition SetClient (cfg : SubmitConfig) (client : option common.ClientRef)
  : M (SubmitConfig * option error) :=
  match client with
  | None => ret (cfg, Some (errors_New "no client supplied"))
  | Some p =>
      let* _ := match Auth cfg with
                | Some _ => store_Auth p (Auth cfg)
                | None => ret tt
                end in
      ret (set_Client cfg (Some p), None)
  end.

Definition set_Auth (cfg : SubmitConfig) (a : option IAuthenticator) : SubmitConfig :=
  {| CACerts := CACerts cfg;
     Client := Client cfg;
     SubmitURI := SubmitURI cfg;
     Auth := a;
     DeleteSession := DeleteSession cfg;
     UseTLS := UseTLS cfg;
     IsInsecure := IsInsecure cfg |}.

(** [SetAuth] sets the authenticator that will be used, in the
    configuration and in its client if there is one. *)
Definition SetAuth (cfg : SubmitConfig) (a : option IAuthenticator) : M SubmitConfig :=
  let cfg := set_Auth cfg a in
  match Client cfg with
  | Some p =>
      let* _ := store_Auth p (Auth cfg) in
      ret cfg
  | None => ret cfg
  end.

(** [SetDeleteSession] instructs to DELETE the session object after it is
    complete. *)
Definition SetDeleteSession (cfg : SubmitConfig) (session : bool) : SubmitConfig :=
  {| CACerts := CACerts cfg;
     Client := Client cfg;
     SubmitURI := SubmitURI cfg;
     Auth := Auth cfg;
     DeleteSession := session;
     UseTLS := UseTLS cfg;
     IsInsecure := IsInsecure cfg |}.

(** [SetIsInsecure] sets the [IsInsecure] parameter. *)
Definition SetIsInsecure (cfg : SubmitConfig) (val : bool) : SubmitConfig :=
  {| CACerts := CACerts cfg;
     Client := Client cfg;
     SubmitURI := SubmitURI cfg;
     Auth := Auth cfg;
     DeleteSession := DeleteSession cfg;
     UseTLS := UseTLS cfg;
     IsInsecure := val |}.

(** [SetCerts] sets the [CACerts] parameter to the specified paths. *)
Definition SetCerts (cfg : SubmitConfig) (paths : list string) : SubmitConfig :=
  {| CACerts := paths;
     Client := Client cfg;
     SubmitURI := SubmitURI cfg;
     Auth := Auth cfg;
     DeleteSession := DeleteSession cfg;
     UseTLS := UseTLS cfg;
     IsInsecure := IsInsecure cfg |}.

(** A caller that calls [SetClient] and then [SetAuth] on its
    configuration, and one that calls them the other way round. *)
Definition clientThenAuth (cfg : SubmitConfig) (p : common.ClientRef)
    (a : option IAuthenticator) : M SubmitConfig :=
  let* r := SetClient cfg (Some p) in
  SetAuth (fst r) a.

Definition authThenClient (cfg : SubmitConfig) (p : common.ClientRef)
    (a : option IAuthenticator) : M SubmitConfig :=
  let* cfg' := SetAuth cfg a in
  let* r := SetClient cfg' (Some p) in
  ret (fst r).

(** The authenticator the client at address [p] carries. *)
Definition authAt (w : World) (p : common.ClientRef) : option (option IAuthenticator) :=
  common.Auth <$> heap w !! p.

(** The transport of the client at address [p]. *)
Definition transportAt (w : World) (p : common.ClientRef) : option http.Transport :=
  common.HTTPClient <$> heap w !! p.

Definition is_sleep (e : Event) : bool :=
  match e with EvSleep _ => true | _ => false end.

Definition is_get (e : Event) : bool :=
  match e with EvRequest (ReqGet _ _) => true | _ => false end.

Definition is_post (e : Event) : bool :=
  match e with EvRequest (ReqPost _ _ _ _ _) => true | _ => false end.

Definition is_delete (e : Event) : bool :=
  match e with EvRequest (ReqDelete _ _) => true | _ => false end.

(** How many events satisfy [p]. *)
Definition count (p : Event -> bool) (evs : list Event) : nat :=
  length (List.filter p evs).

(** The events a poll of [uri] through [client] may add to the trace. *)
Definition pollEvent (d : Z) (client : common.ClientRef) (uri : string) (e : Event) : Prop :=
  e = EvRequest (ReqGet client uri) \/ e = EvSleep d.

(** The client through which a request goes. *)
Definition requestClient (r : Request) : common.ClientRef :=
  match r with
  | ReqPost c _ _ _ _ => c
  | ReqGet c _ => c
  | ReqDelete c _ => c
  end.

(** Every request among the events goes through [client]. *)
Definition allThrough (client : common.ClientRef) (evs : list Event) : Prop :=
  Forall (fun e => match e with
                   | EvRequest r => requestClient r = client
                   | _ => True
                   end) evs.

(** The client [Run] works through: the one supplied with the
    configuration, or else the next free address of the heap. *)
Definition clientOf (cfg : SubmitConfig) (w : World) : common.ClientRef :=
  match Client cfg with
  | Some c => c
  | None => length (heap w)
  end.

(** The client [initClient] builds for a configuration without client. *)
Definition defaultClient (cfg : SubmitConfig) : common.Client :=
  {| common.HTTPClient :=
       if negb (UseTLS cfg) then http.PlainTransport
       else if IsInsecure cfg then http.InsecureTLSTransport
       else http.TLSTransport (CACerts cfg);
     common.Auth := Auth cfg |}.


(** The environment [E] with another answer to DELETE requests. *)
Definition withDeleteReply (E : Env) (d : World -> Request -> option error) : Env :=
  {| MaxAttempts := MaxAttempts E;
     PollPeriod := PollPeriod E;
     Quote := Quote E;
     url_Parse := url_Parse E;
     url_Resolve := url_Resolve E;
     DecodeJSONBody := DecodeJSONBody E;
     LoadCACerts := LoadCACerts E;
     http_reply := http_reply E;
     delete_reply := d |}.

(** The world after the cleanup that follows a poll ended in world [w3]:
    with the delete flag set, one DELETE of the session resource and, when
    it fails, one log line. *)
Definition afterCleanup (E : Env) (cfg : SubmitConfig) (client : common.ClientRef)
    (uri : string) (w3 : World) : World :=
  if DeleteSession cfg then
    match delete_reply E w3 (ReqDelete client uri) with
    | Some derr =>
        emit (EvLog ("DELETE " +:+ uri +:+ " failed: " +:+ Error derr))
          (emit (EvRequest (ReqDelete client uri)) w3)
    | None => emit (EvRequest (ReqDelete client uri)) w3
    end
  else w3.

(** ** A scripted server, as in the tests of the package

    The theorems below hold for every environment. To run the code on
    concrete inputs, the scripts of this module play the part of the test
    handlers of [provisioning_test.go]: one canned answer to the POST, a
    list of canned answers to the successive GETs and one to the DELETE. *)

Module Script.

Definition dq : string := String (Ascii.ascii_of_nat 34) EmptyString.

(** [%q] on strings without quotes, backslashes or control characters *)
Definition quote_plain (s : string) : string := dq +:+ s +:+ dq.

Definition is_letter (c : Ascii.ascii) : bool :=
  let n := Ascii.nat_of_ascii c in
  ((97 <=? n) && (n <=? 122) || (65 <=? n) && (n <=? 90))%nat.

Definition is_scheme_extra (c : Ascii.ascii) : bool :=
  let n := Ascii.nat_of_ascii c in
  ((48 <=? n) && (n <=? 57) || (n =? 43) || (n =? 45) || (n =? 46))%nat.

Definition to_lower (c : Ascii.ascii) : Ascii.ascii :=
  let n := Ascii.nat_of_ascii c in
  if ((65 <=? n) && (n <=? 90))%nat then Ascii.ascii_of_nat (n + 32) else c.

(** The scheme scanner of [net/url]: [inr sch] is the scheme found ahead
    of the first colon (empty when there is none), [inl] the error on a
    leading colon. [acc] holds the characters read so far, last first. *)
Fixpoint getScheme (acc : list Ascii.ascii) (rest : string) : error + string :=
  match rest with
  | EmptyString => inr EmptyString
  | String c rest' =>
      if is_letter c then getScheme (c :: acc) rest'
      else if is_scheme_extra c then
        match acc with
        | [] => inr EmptyString
        | _ => getScheme (c :: acc) rest'
        end
      else if (Ascii.nat_of_ascii c =? 58)%nat then
        match acc with
        | [] => inl (errors_New "missing protocol scheme")
        | _ => inr (String.string_of_list_ascii (rev (map to_lower acc)))
        end
      else inr EmptyString
  end.

Definition parse (uri : string) : error + URL :=
  match getScheme [] uri with
  | inl err => inl (fmt_Errorf_wrap ("parse " +:+ quote_plain uri +:+ ": " +:+ Error err) err)
  | inr sch => inr {| Scheme := sch |}
  end.

(** A session as the server writes it, and the body that carries it. *)
Definition session (st : string) (reason : option string) : SubmitSession :=
  {| Status := st; Expiry := "2030-10-12T07:20:50.52Z"; FailureReason := reason |}.

Definition field (k v : string) : string := dq +:+ k +:+ dq +:+ ":" +:+ dq +:+ v +:+ dq.

Definition render (j : SubmitSession) : string :=
  "{" +:+ field "status" (Status j) +:+ "," +:+ field "expiry" (Expiry j)
  +:+ match FailureReason j with
      | Some r => "," +:+ field "failure-reason" r
      | None => EmptyString
      end
  +:+ "}".

(** The decoder of the scripts knows the bodies of [known] and rejects
    every other body. *)
Definition known : list SubmitSession :=
  [ session "success" None; session "processing" None;
    session "failed" (Some "taking too long"); session "failed" None;
    session "whatever" None ].

Definition decode (res : http.Response) : error + SubmitSession :=
  match List.find (fun j => String.eqb (render j) (http.Body res)) known with
  | Some j => inr j
  | None => inl (errors_New "invalid character 'i' looking for beginning of value")
  end.

Definition statusText (code : Z) : string :=
  if Z.eqb code 200 then "OK"
  else if Z.eqb code 201 then "Created"
  else if Z.eqb code 404 then "Not Found"
  else EmptyString.

(** A response carrying a session, with the session media type. *)
Definition sessionResponse (code : Z) (location : option string) (j : SubmitSession)
  : http.Response :=
  {| http.StatusCode := code;
     http.Status := pretty code +:+ " " +:+ statusText code;
     http.ContentLength := Z.of_nat (String.length (render j));
     http.Header :=
       match location with
       | Some loc => <["Location" := [loc]]> {["Content-Type" := [sessionMediaType]]}
       | None => {["Content-Type" := [sessionMediaType]]}
       end;
     http.Body := render j |}.

Definition env (max : Z) (post : error + http.Response) (gets : list (error + http.Response))
    (del : option error) : Env :=
  {| MaxAttempts := max;
     PollPeriod := 1000000000;
     Quote := quote_plain;
     url_Parse := parse;
     url_Resolve := fun _ loc => inr loc;
     DecodeJSONBody := decode;
     LoadCACerts := fun _ => None;
     http_reply := fun w rq =>
       match rq with
       | ReqPost _ _ _ _ _ => post
       | _ => nth (count is_get (trace w)) gets
                  (inl (errors_New "no such host"))
       end;
     delete_reply := fun _ _ => del |}.

Definition testEndorsement : list Byte.byte := String.list_byte_of_string "test corim".
Definition testEndorsementMediaType : string := "application/corim+cbor".
Definition testSubmitURI : string :=
  "http://veraison.example/endorsement-provisioning/v1/submit".
Definition testSessionURI : string :=
  "http://veraison.example/endorsement-provisioning/v1/session/1234".

Definition config (uri : string) (client : option common.ClientRef) (del : bool) : SubmitConfig :=
  {| CACerts := []; Client := client; SubmitURI := uri; Auth := None;
     DeleteSession := del; UseTLS := false; IsInsecure := false |}.

Definition world0 : World := {| heap := []; trace := [] |}.

(** A world in which the caller has already built a plain client, and a
    configuration that carries it. *)
Definition plainClient : common.Client := {| common.HTTPClient := http.PlainTransport; common.Auth := None |}.
Definition world1 : World := {| heap := [plainClient]; trace := [] |}.
Definition supplied (del : bool) : SubmitConfig := config testSubmitURI (Some O) del.

(** The server answers the POST with 200 and the session [j]. *)
Definition syncEnv (j : SubmitSession) : Env :=
  env 2 (inr (sessionResponse 200 None j)) [] None.

(** The server answers the POST with 201, a [processing] session and the
    location of the session resource, then the GETs with 200 and the
    sessions of [gets] in turn. *)
Definition createdResponse : http.Response :=
  sessionResponse 201 (Some testSessionURI) (session "processing" None).

Definition asyncEnv (max : Z) (gets : list SubmitSession) (del : option error) : Env :=
  env max (inr createdResponse) (map (fun j => inr (sessionResponse 200 None j)) gets) del.


(** The sessions and scenarios of the tests. *)
Definition succeeded : SubmitSession := session "success" None.
Definition processing : SubmitSession := session "processing" None.
Definition tooLong : SubmitSession := session "failed" (Some "taking too long").
Definition whatever : SubmitSession := session "whatever" None.

Definition successEnv : Env := syncEnv succeeded.

Definition notFound : http.Response :=
  {| http.StatusCode := 404;
     http.Status := "404 Not Found";
     http.ContentLength := 0;
     http.Header := {["Content-Type" := [sessionMediaType]]};
     http.Body := EmptyString |}.

Definition invalidJSON : http.Response :=
  {| http.StatusCode := 200;
     http.Status := "200 OK";
     http.ContentLength := 12;
     http.Header := {["Content-Type" := [sessionMediaType]]};
     http.Body := "invalid json" |}.


Definition noSuchHost : error := errors_New "dial tcp: lookup veraison.example: no such host".

(** The answers of the poll scenarios: the GET cannot be sent, is
    answered with 404, is answered with a body that is not JSON. *)
Definition pollEnv (reply : error + http.Response) : Env :=
  env 3 (inr createdResponse) [reply] None.

(** The server answers the POST with [res] and nothing else. *)
Definition postEnv (res : http.Response) : Env := env 3 (inr res) [] None.

Definition noLocation : http.Response := sessionResponse 201 None processing.
Definition createdWhatever : http.Response :=
  sessionResponse 201 (Some testSessionURI) whatever.

(** The scenario of the test with delete: 201, then [processing], then
    [success]; here the DELETE fails. *)
Definition deleteEnv : Env :=
  asyncEnv 3 [processing; succeeded] (Some (errors_New "boom")).
Definition unsupplied (del : bool) : SubmitConfig := config testSubmitURI None del.

(** The environment [E] in which the CA certificates fail to load. *)
Definition withCertError (E : Env) (err : error) : Env :=
  {| MaxAttempts := MaxAttempts E;
     PollPeriod := PollPeriod E;
     Quote := Quote E;
     url_Parse := url_Parse E;
     url_Resolve := url_Resolve E;
     DecodeJSONBody := DecodeJSONBody E;
     LoadCACerts := fun _ => Some err;
     http_reply := http_reply E;
     delete_reply := delete_reply E |}.

Definition certError : error := errors_New "open /test/path1: no such file or directory".

Definition testCertPaths : list string := ["/test/path1"; "/test/path2"].

(** A configuration for a TLS endpoint with extra CA certificates. *)
Definition tlsConfig : SubmitConfig :=
  {| CACerts := testCertPaths; Client := None;
     SubmitURI := "https://veraison.example/endorsement-provisioning/v1/submit";
     Auth := None; DeleteSession := false; UseTLS := true; IsInsecure := false |}.

(** The POST cannot be sent. *)
Definition postFailEnv : Env := env 3 (inl noSuchHost) [] None.

(** An authenticator, a configuration that has it, and a world whose only
    client came with an authenticator of its own. *)
Definition testAuth : IAuthenticator := Authenticator 1.
Definition authedConfig : SubmitConfig :=
  {| CACerts := []; Client := None; SubmitURI := testSubmitURI; Auth := Some testAuth;
     DeleteSession := false; UseTLS := false; IsInsecure := false |}.
Definition ownAuthClient : common.Client :=
  {| common.HTTPClient := http.PlainTransport; common.Auth := Some (Authenticator 7) |}.
Definition world2 : World := {| heap := [ownAuthClient]; trace := [] |}.

(** A 200 response with a declared length of zero. *)
Definition emptyResponse : http.Response :=
  {| http.StatusCode := 200;
     http.Status := "200 OK";
     http.ContentLength := 0;
     http.Header := {["Content-Type" := [sessionMediaType]]};
     http.Body := EmptyString |}.








End Script.


(** * Properties *)

Section Properties.

Context (E : Env).

(** ** The decoder and the poller *)

Lemma pollLoop_eq (client : common.ClientRef) (uri : string) (attempt : Z) (w : World) :
  pollLoop E client uri attempt w =
  if Z_lt_dec attempt (MaxAttempts E) then
    match pollOnce E client uri w with
    | Returns w' (Some r) => Returns w' r
    | Returns w' None => pollLoop E client uri (attempt + 1) w'
    | Panics w' => Panics w'
    end
  else Returns w (None, Some pollExhausted).
Proof.
  simp pollLoop.
  destruct (Z_lt_dec attempt (MaxAttempts E)); simpl; [|reflexivity].
  destruct (pollOnce E client uri w) as [w' [r|]|w']; reflexivity.
Qed.

Lemma count_app (p : Event -> bool) (l1 l2 : list Event) :
  count p (l1 ++ l2) = (count p l1 + count p l2)%nat.
Proof. unfold count. rewrite List.filter_app, length_app. reflexivity. Qed.

Lemma sessionFromResponse_cases (res : http.Response) :
  (exists j, sessionFromResponse E res = (Some j, None))
  \/ (exists err, sessionFromResponse E res = (None, Some err)).
Proof.
  unfold sessionFromResponse.
  destruct (Z.eqb (http.ContentLength res) 0); [right; eauto|].
  destruct (negb _); [right; eauto|].
  destruct (DecodeJSONBody E res); [right|left]; eauto.
Qed.

(** One pass through the loop body either sleeps and asks for another
    pass, which happens exactly on a [processing] session, or ends the
    poll with a settled result. It never panics. *)
Lemma pollOnce_cases (client : common.ClientRef) (uri : string) (w : World) :
  let w1 := emit (EvRequest (ReqGet client uri)) w in
  (pollOnce E client uri w = Returns (emit (EvSleep (PollPeriod E)) w1) None
   /\ getProcessing E client uri w)
  \/ (exists r, pollOnce E client uri w = Returns w1 (Some r)
       /\ settled r /\ ~ getProcessing E client uri w).
Proof.
  intros w1. unfold pollOnce, bind, HTTPClient_Get, getProcessing, getYields.
  destruct (http_reply E w (ReqGet client uri)) as [err|res] eqn:Hreply.
  { right. eexists. split; [reflexivity|]. split; [right; eauto|].
    intros (j & (res & Hres & _) & _). discriminate. }
  destruct (Z.eqb_spec (http.StatusCode res) http.StatusOK) as [Hcode|Hcode]; simpl.
  2:{ right. eexists. split; [reflexivity|]. split; [right; eauto|].
      intros (j & (res' & Hres & Hc & _) & _). congruence. }
  destruct (sessionFromResponse_cases res) as [[j Hj]|[err Hj]]; rewrite Hj.
  2:{ right. eexists. split; [reflexivity|]. split; [right; eauto|].
      intros (j & (res' & Hres & _ & Hd) & _). congruence. }
  destruct (String.eqb_spec (Status j) common.APIStatusSuccess) as [Hs|Hs].
  { right. eexists. split; [reflexivity|]. split; [left; eauto|].
    intros (j' & (res' & Hres & _ & Hd) & Hp).
    assert (j' = j) by congruence. subst j'. rewrite Hs in Hp. discriminate. }
  destruct (String.eqb_spec (Status j) common.APIStatusFailed) as [Hf|Hf].
  { right. eexists. split; [reflexivity|]. split; [right; eauto|].
    intros (j' & (res' & Hres & _ & Hd) & Hp).
    assert (j' = j) by congruence. subst j'. rewrite Hf in Hp. discriminate. }
  destruct (String.eqb_spec (Status j) common.APIStatusProcessing) as [Hp|Hp].
  { left. split; [reflexivity|]. exists j. split; [|assumption]. exists res. auto. }
  right. eexists. split; [reflexivity|]. split; [right; eauto|].
  intros (j' & (res' & Hres & _ & Hd) & Hp'). congruence.
Qed.

(** The poller always returns a settled result; it leaves the heap alone
    and adds to the trace only GETs of the polled URI and sleeps, with at
    most as many GETs as there are attempts left. *)
Lemma pollLoop_footprint (client : common.ClientRef) (uri : string) (n : nat) :
  forall (attempt : Z) (w : World),
    Z.to_nat (MaxAttempts E - attempt) = n ->
    exists w' r evs,
      pollLoop E client uri attempt w = Returns w' r
      /\ settled r
      /\ heap w' = heap w
      /\ trace w' = (trace w ++ evs)%list
      /\ Forall (pollEvent (PollPeriod E) client uri) evs
      /\ (count is_get evs <= n)%nat.
Proof.
  induction n as [|n IH]; intros attempt w Hn; rewrite pollLoop_eq.
  - destruct (Z_lt_dec attempt (MaxAttempts E)); [lia|].
    exists w, (None, Some pollExhausted), [].
    repeat split; [right; eauto|now rewrite app_nil_r|constructor|reflexivity].
  - destruct (Z_lt_dec attempt (MaxAttempts E)); [|lia].
    destruct (pollOnce_cases client uri w) as [[Hp _]|(r & Hp & Hr & _)]; rewrite Hp.
    + destruct (IH (attempt + 1) (emit (EvSleep (PollPeriod E))
                  (emit (EvRequest (ReqGet client uri)) w)))
        as (w' & r & evs & Hrun & Hr & Hheap & Htrace & Hevs & Hcount); [lia|].
      exists w', r, (EvRequest (ReqGet client uri) :: EvSleep (PollPeriod E) :: evs).
      repeat split; try assumption.
      * rewrite Htrace. simpl. rewrite <- !app_assoc. reflexivity.
      * constructor; [left; reflexivity|]. constructor; [right; reflexivity|assumption].
      * change (S (count is_get evs) <= S n)%nat. lia.
    + exists (emit (EvRequest (ReqGet client uri)) w), r, [EvRequest (ReqGet client uri)].
      repeat split; try assumption.
      * constructor; [left; reflexivity|constructor].
      * change (1 <= S n)%nat. lia.
Qed.

Lemma pollOnce_processing (client : common.ClientRef) (uri : string) (w : World) :
  getProcessing E client uri w ->
  pollOnce E client uri w =
  Returns (emit (EvSleep (PollPeriod E)) (emit (EvRequest (ReqGet client uri)) w)) None.
Proof.
  intros Hp. destruct (pollOnce_cases client uri w) as [[H _]|(r & _ & _ & Hn)];
    [assumption|contradiction].
Qed.

Lemma pollOnce_success (client : common.ClientRef) (uri : string) (w : World) (j : SubmitSession) :
  getYields E client uri w j ->
  Status j = common.APIStatusSuccess ->
  pollOnce E client uri w =
  Returns (emit (EvRequest (ReqGet client uri)) w) (Some (Some j, None)).
Proof.
  intros (res & Hreply & Hcode & Hdec) Hs.
  unfold pollOnce, bind, HTTPClient_Get. rewrite Hreply, Hcode, Hdec, Hs. reflexivity.
Qed.

Lemma pollLoop_exhausts (client : common.ClientRef) (uri : string) (n : nat) :
  forall (attempt : Z) (w : World),
    Z.to_nat (MaxAttempts E - attempt) = n ->
    (forall k, (k < n)%nat -> getProcessing E client uri (idle E client uri k w)) ->
    pollLoop E client uri attempt w
    = Returns (idle E client uri n w) (None, Some pollExhausted).
Proof.
  induction n as [|n IH]; intros attempt w Hn Hall; rewrite pollLoop_eq.
  - destruct (Z_lt_dec attempt (MaxAttempts E)); [lia|reflexivity].
  - destruct (Z_lt_dec attempt (MaxAttempts E)); [|lia].
    rewrite (pollOnce_processing client uri w (Hall O ltac:(lia))).
    rewrite (IH (attempt + 1)); [reflexivity|lia|].
    intros k Hk. apply (Hall (S k)). lia.
Qed.

Lemma pollLoop_succeeds (client : common.ClientRef) (uri : string) (j : SubmitSession) (k : nat) :
  forall (attempt : Z) (w : World),
    (k < Z.to_nat (MaxAttempts E - attempt))%nat ->
    (forall i, (i < k)%nat -> getProcessing E client uri (idle E client uri i w)) ->
    getYields E client uri (idle E client uri k w) j ->
    Status j = common.APIStatusSuccess ->
    pollLoop E client uri attempt w
    = Returns (emit (EvRequest (ReqGet client uri)) (idle E client uri k w)) (Some j, None).
Proof.
  induction k as [|k IH]; intros attempt w Hk Hall Hj Hs; rewrite pollLoop_eq;
    (destruct (Z_lt_dec attempt (MaxAttempts E)); [|lia]).
  - rewrite (pollOnce_success client uri w j Hj Hs). reflexivity.
  - rewrite (pollOnce_processing client uri w (Hall O ltac:(lia))).
    apply IH; [lia| |assumption|assumption].
    intros i Hi. apply (Hall (S i)). lia.
Qed.

(** C1: the poller issues at most [MaxAttempts - 1] GET requests. When
    the first [MaxAttempts - 1] answers all carry the status [processing]
    (whatever any later answer would be), it returns a nil record and the
    error of the exhausted budget (the poll timeout error of the
    specification), having issued exactly that many GETs;
    when an answer within the budget carries [success], all answers before
    it carrying [processing], it returns that record and a nil error. *)
Theorem poll_attempt_budget
    (cfg : SubmitConfig) (client : common.ClientRef) (uri : string) (w : World) :
  Client cfg = Some client ->
  (exists w' r evs,
      pollForSubmissionCompletion E cfg uri w = Returns w' r
      /\ trace w' = (trace w ++ evs)%list
      /\ (count is_get evs <= Z.to_nat (MaxAttempts E - 1))%nat)
  /\ ((forall k, (k < pollBudget E)%nat ->
         getProcessing E client uri (idle E client uri k w)) ->
      pollForSubmissionCompletion E cfg uri w
      = Returns (idle E client uri (pollBudget E) w)
          (None, Some (fmt_Errorf
             "polling attempts exhausted, session resource state still not complete"))
      /\ count is_get (trace (idle E client uri (pollBudget E) w))
         = (count is_get (trace w) + Z.to_nat (MaxAttempts E - 1))%nat)
  /\ (forall (k : nat) (j : SubmitSession),
        (k < pollBudget E)%nat ->
        (forall i, (i < k)%nat -> getProcessing E client uri (idle E client uri i w)) ->
        getYields E client uri (idle E client uri k w) j ->
        Status j = common.APIStatusSuccess ->
        pollForSubmissionCompletion E cfg uri w
        = Returns (emit (EvRequest (ReqGet client uri)) (idle E client uri k w))
            (Some j, None)).
Proof.
  intros Hc. unfold pollForSubmissionCompletion, bind. rewrite Hc. simpl.
  split; [|split].
  - destruct (pollLoop_footprint client uri (pollBudget E) 1 w eq_refl)
      as (w' & r & evs & Hrun & _ & _ & Htrace & _ & Hcount).
    exists w', r, evs. auto.
  - intros Hall. split.
    + apply pollLoop_exhausts; [reflexivity|assumption].
    + clear Hall. unfold pollBudget. generalize (Z.to_nat (MaxAttempts E - 1)) as n.
      intros n; revert w. induction n as [|n IH]; intros w; simpl; [lia|].
      rewrite IH. unfold emit; simpl trace. rewrite !count_app.
      unfold count; simpl. lia.
  - intros k j Hk Hall Hj Hs. apply pollLoop_succeeds; assumption.
Qed.

(** ** The submit controller *)

Lemma pollEvents_through (d : Z) (client : common.ClientRef) (uri : string) (evs : list Event) :
  Forall (pollEvent d client uri) evs ->
  allThrough client evs /\ count is_post evs = O /\ count is_delete evs = O.
Proof.
  induction 1 as [|ev evs Hev _ (IH1 & IH2 & IH3)].
  - repeat split. constructor.
  - destruct Hev as [-> | ->]; (split; [constructor; [reflexivity|assumption]|]);
      split; assumption.
Qed.

(** [initClient] always returns; it adds no event to the trace, keeps the
    URI and the delete flag, and on success leaves the configuration with
    the client [clientOf cfg w]. *)
Lemma initClient_cases (cfg : SubmitConfig) (w : World) :
  exists w1 cfg1 ierr,
    initClient E cfg w = Returns w1 (cfg1, ierr)
    /\ trace w1 = trace w
    /\ SubmitURI cfg1 = SubmitURI cfg
    /\ DeleteSession cfg1 = DeleteSession cfg
    /\ (ierr = None -> Client cfg1 = Some (clientOf cfg w)).
Proof.
  unfold initClient, clientOf.
  destruct (Client cfg) as [c|] eqn:Hc.
  { exists w, cfg, None. rewrite Hc. repeat split. }
  destruct (UseTLS cfg); simpl.
  2:{ do 3 eexists. split; [reflexivity|]. repeat split. }
  destruct (IsInsecure cfg).
  { do 3 eexists. split; [reflexivity|]. repeat split. }
  unfold bind, NewTLSClient. destruct (LoadCACerts E (CACerts cfg)) as [err|].
  - do 3 eexists. split; [reflexivity|]. repeat split. discriminate.
  - do 3 eexists. split; [reflexivity|]. repeat split.
Qed.

Lemma initClient_supplied (cfg : SubmitConfig) (client : common.ClientRef) (w : World) :
  Client cfg = Some client ->
  initClient E cfg w = Returns w (cfg, None).
Proof. intros Hc. unfold initClient. rewrite Hc. reflexivity. Qed.

(** The footprint of [Run]: it always returns, with a settled result; it
    sends at most one POST; every request goes through the client of the
    configuration; the heap is the one [initClient] left; once [initClient]
    has succeeded the first event is the POST. *)
Lemma Run_footprint (cfg : SubmitConfig) (e : list Byte.byte) (m : string) (w : World) :
  exists w' r evs,
    Run E cfg e m w = Returns w' r
    /\ settled r
    /\ trace w' = (trace w ++ evs)%list
    /\ (count is_post evs <= 1)%nat
    /\ allThrough (clientOf cfg w) evs
    /\ ((SubmitURI cfg = EmptyString /\ w' = w)
        \/ (SubmitURI cfg <> EmptyString
            /\ heap w' = heapAfterInit E cfg w
            /\ (initError E cfg w = None ->
                exists rest,
                  evs = EvRequest (ReqPost (clientOf cfg w) e m sessionMediaType
                                     (SubmitURI cfg)) :: rest))).
Proof.
  unfold Run, check. destruct (String.eqb_spec (SubmitURI cfg) "") as [Hcheck|Hcheck].
  { eexists w, _, []. split; [reflexivity|]. repeat split;
      [right; eauto|now rewrite app_nil_r|unfold count; simpl; lia|constructor|].
    left. split; [assumption|reflexivity]. }
  destruct (initClient_cases cfg w)
    as (w1 & cfg1 & ierr & Hinit & Htrace1 & Huri & Hdel & Hptr).
  set (client := clientOf cfg w) in *.
  set (post := ReqPost client e m sessionMediaType (SubmitURI cfg)).
  assert (Hheap : forall w' evs,
            heap w' = heap w1 ->
            (ierr = None -> exists rest, evs = EvRequest post :: rest) ->
            (SubmitURI cfg = EmptyString /\ w' = w)
            \/ (SubmitURI cfg <> EmptyString
                /\ heap w' = heapAfterInit E cfg w
                /\ (initError E cfg w = None ->
                    exists rest, evs = EvRequest post :: rest))).
  { intros w' evs Hw' Hevs. right. split; [assumption|].
    unfold heapAfterInit, initError. rewrite Hinit. auto. }
  unfold bind at 1. rewrite Hinit.
  destruct ierr as [err|].
  { exists w1, (None, Some err), []. repeat split;
      [right; eauto|rewrite app_nil_r; assumption|unfold count; simpl; lia
      |constructor|apply Hheap; [reflexivity|discriminate]]. }
  specialize (Hptr eq_refl).
  unfold bind at 1. rewrite Hptr. simpl.
  unfold bind at 1. unfold PostResource. rewrite Huri. fold post.
  set (w2 := emit (EvRequest post) w1).
  assert (Hstop : forall r, settled r ->
            exists w' r' evs,
              Returns w2 r = Returns w' r'
              /\ settled r'
              /\ trace w' = (trace w ++ evs)%list
              /\ (count is_post evs <= 1)%nat
              /\ allThrough client evs
              /\ ((SubmitURI cfg = EmptyString /\ w' = w)
                  \/ (SubmitURI cfg <> EmptyString
                      /\ heap w' = heapAfterInit E cfg w
                      /\ (initError E cfg w = None ->
                          exists rest, evs = EvRequest post :: rest)))).
  { intros r Hr. exists w2, r, [EvRequest post]. repeat split;
      [assumption|simpl; now rewrite Htrace1|unfold count; simpl; lia
      |constructor; [reflexivity|constructor]|apply Hheap; [reflexivity|eauto]]. }
  destruct (http_reply E w1 post) as [err|res]; [apply Hstop; right; eauto|].
  destruct (negb _ && negb _) eqn:Hcode; [apply Hstop; right; eauto|].
  destruct (sessionFromResponse_cases res) as [[j Hj]|[err Hj]]; rewrite Hj;
    [|apply Hstop; right; eauto].
  destruct (Z.eqb (http.StatusCode res) http.StatusOK).
  { destruct (String.eqb_spec (Status j) common.APIStatusSuccess);
      [apply Hstop; left; eauto|].
    destruct (String.eqb (Status j) common.APIStatusFailed);
      apply Hstop; right; eauto. }
  destruct (negb (String.eqb (Status j) common.APIStatusProcessing));
    [apply Hstop; right; eauto|].
  destruct (ExtractLocation E res (SubmitURI cfg)) as [err|sessionURI];
    [apply Hstop; right; eauto|].
  clear Hstop. unfold bind at 1. unfold pollForSubmissionCompletion.
  unfold bind at 1. rewrite Hptr. simpl.
  destruct (pollLoop_footprint client sessionURI _ 1 w2 eq_refl)
    as (w3 & r & evs & Hrun & Hr & Hheap3 & Htrace3 & Hevs & _).
  destruct (pollEvents_through _ _ _ _ Hevs) as (Hthrough & Hposts & _).
  rewrite Hrun. unfold bind.
  destruct (DeleteSession cfg1).
  - simpl.
    set (del := ReqDelete client sessionURI).
    destruct (delete_reply E w3 del) as [derr|]; simpl.
    + eexists _, r, (EvRequest post :: evs ++ [EvRequest del; EvLog _])%list.
      split; [reflexivity|].
      repeat split; [assumption| | | |apply Hheap; simpl; eauto].
      * simpl. rewrite Htrace3. simpl. rewrite Htrace1, <- !app_assoc. reflexivity.
      * change (EvRequest post :: evs ++ _)%list
          with ([EvRequest post] ++ evs ++ [EvRequest del; EvLog ("DELETE " +:+ sessionURI +:+ " failed: " +:+ Error derr)])%list.
        rewrite !count_app, Hposts. unfold count; simpl. lia.
      * constructor; [reflexivity|]. apply Forall_app. split; [assumption|].
        repeat constructor.
    + eexists _, r, (EvRequest post :: evs ++ [EvRequest del])%list.
      split; [reflexivity|].
      repeat split; [assumption| | | |apply Hheap; simpl; eauto].
      * simpl. rewrite Htrace3. simpl. rewrite Htrace1, <- !app_assoc. reflexivity.
      * change (EvRequest post :: evs ++ _)%list
          with ([EvRequest post] ++ evs ++ [EvRequest del])%list.
        rewrite !count_app, Hposts. unfold count; simpl. lia.
      * constructor; [reflexivity|]. apply Forall_app. split; [assumption|].
        repeat constructor.
  - simpl. exists w3, r, (EvRequest post :: evs)%list.
    split; [reflexivity|]. repeat split; [assumption| | | |apply Hheap; eauto].
    * rewrite Htrace3. simpl. rewrite Htrace1, <- !app_assoc. reflexivity.
    * change (EvRequest post :: evs)%list with ([EvRequest post] ++ evs)%list.
      rewrite !count_app, Hposts. unfold count; simpl. lia.
    * constructor; [reflexivity|assumption].
Qed.

(** Steps through [Run] up to the point where the response to the POST has
    been received, given [H : submitted ...]. *)
Ltac run_to_response H :=
  let Hcheck := fresh "Hcheck" in
  let Hinit := fresh "Hinit" in
  let Hptr := fresh "Hptr" in
  let Hreply := fresh "Hreply" in
  let Huri := fresh "Huri" in
  let Hdel := fresh "Hdel" in
  let Heq := fresh "Heq" in
  destruct H as (Hcheck & Hinit & Hptr & Hreply);
  match type of Hinit with
  | initClient ?E ?cfg ?w = _ =>
      first
        [ destruct (initClient_cases E cfg w) as (? & ? & ? & Heq & _ & Huri & Hdel & _)
        | destruct (initClient_cases cfg w) as (? & ? & ? & Heq & _ & Huri & Hdel & _) ];
      rewrite Hinit in Heq; injection Heq as <- <- <-;
      unfold Run, check;
      destruct (String.eqb_spec (SubmitURI cfg) EmptyString); [contradiction|];
      unfold bind at 1; rewrite Hinit;
      unfold bind at 1; rewrite Hptr; simpl;
      unfold bind at 1; unfold PostResource; rewrite Huri, Hreply
  end.

(** C2: on a 200 response that decodes to a session record, [Run] branches
    three ways on the status of the record. [success] returns the record
    and a nil error; [failed] returns a nil record and an error (the
    submission error of the specification) whose message is
    [submission failed], followed by a colon and the failure reason when
    there is one; any other status returns a nil record and an error (a
    protocol error) that names the status, as [%q] renders it, as unexpected
    in a 200 response. No request follows the POST in any of the three cases. *)
Theorem Run_sync_outcomes
    (cfg : SubmitConfig) (e : list Byte.byte) (m : string) (w : World)
    (cfg1 : SubmitConfig) (client : common.ClientRef) (w1 : World) (res : http.Response)
    (j : SubmitSession) :
  submitted E cfg e m w cfg1 client w1 res ->
  http.StatusCode res = 200 ->
  sessionFromResponse E res = (Some j, None) ->
  (Status j = "success" ->
   Run E cfg e m w = Returns (posted cfg e m client w1) (Some j, None))
  /\ (Status j = "failed" ->
      Run E cfg e m w
      = Returns (posted cfg e m client w1)
          (None, Some (errors_New
             match FailureReason j with
             | Some reason => "submission failed: " +:+ reason
             | None => "submission failed"
             end)))
  /\ (Status j <> "success" -> Status j <> "failed" ->
      Run E cfg e m w
      = Returns (posted cfg e m client w1)
          (None, Some (fmt_Errorf
             ("unexpected session state " +:+ Quote E (Status j)
              +:+ " in 200 response")))).
Proof.
  intros Hsub Hcode Hdec.
  repeat split; intros; run_to_response Hsub; rewrite Hcode, Hdec; simpl.
  - replace (Status j) with common.APIStatusSuccess. reflexivity.
  - replace (Status j) with common.APIStatusFailed. simpl.
    unfold submissionFailed. destruct (FailureReason j); reflexivity.
  - destruct (String.eqb_spec (Status j) common.APIStatusSuccess); [contradiction|].
    destruct (String.eqb_spec (Status j) common.APIStatusFailed); [contradiction|].
    reflexivity.
Qed.

(** Once the response to the POST is a 201 with a [processing] session
    and a follow-up URI, [Run] polls that URI, then deletes the session
    resource if asked to, and returns what the poll returned. *)
Lemma Run_polls
    (cfg : SubmitConfig) (e : list Byte.byte) (m : string) (w : World)
    (cfg1 : SubmitConfig) (client : common.ClientRef) (w1 : World) (res : http.Response)
    (j : SubmitSession) (uri : string) :
  submitted E cfg e m w cfg1 client w1 res ->
  http.StatusCode res = 201 ->
  sessionFromResponse E res = (Some j, None) ->
  Status j = "processing" ->
  ExtractLocation E res (SubmitURI cfg) = inr uri ->
  exists w3 r evs,
    pollForSubmissionCompletion E cfg1 uri (posted cfg e m client w1) = Returns w3 r
    /\ trace w3 = (trace (posted cfg e m client w1) ++ evs)%list
    /\ Forall (pollEvent (PollPeriod E) client uri) evs
    /\ Run E cfg e m w
       = Returns
           (if DeleteSession cfg then
              match delete_reply E w3 (ReqDelete client uri) with
              | Some derr =>
                  emit (EvLog ("DELETE " +:+ uri +:+ " failed: " +:+ Error derr))
                    (emit (EvRequest (ReqDelete client uri)) w3)
              | None => emit (EvRequest (ReqDelete client uri)) w3
              end
            else w3) r.
Proof.
  intros Hsub Hcode Hdec Hst Hloc.
  assert (Hptr' : Client cfg1 = Some client) by apply Hsub.
  destruct (pollLoop_footprint client uri _ 1 (posted cfg e m client w1) eq_refl)
    as (w3 & r & evs & Hrun & _ & _ & Htrace & Hevs & _).
  exists w3, r, evs.
  assert (Hpoll : pollForSubmissionCompletion E cfg1 uri (posted cfg e m client w1)
                  = Returns w3 r).
  { unfold pollForSubmissionCompletion, bind. rewrite Hptr'. simpl. assumption. }
  repeat split; try assumption.
  run_to_response Hsub. rewrite Hcode, Hdec, Hst, Hloc. simpl.
  unfold bind at 1. fold (posted cfg e m client w1). rewrite Hpoll.
  unfold bind. rewrite Hdel.
  destruct (DeleteSession cfg); [|reflexivity].
  simpl.
  destruct (delete_reply E w3 (ReqDelete client uri)); reflexivity.
Qed.

(** C5: on a 201 response that decodes to a session record, [Run] polls
    only when the status is [processing] and a follow-up URI could be
    extracted. A status other than [processing] gives an error naming the
    status as unexpected in a 201 response; a missing [Location] header, or
    one that cannot be resolved against the submit URI, gives an error
    saying that the URI of the session resource cannot be determined. In
    these cases nothing follows the POST, so no GET is sent. *)
Theorem Run_async_guards
    (cfg : SubmitConfig) (e : list Byte.byte) (m : string) (w : World)
    (cfg1 : SubmitConfig) (client : common.ClientRef) (w1 : World) (res : http.Response)
    (j : SubmitSession) :
  submitted E cfg e m w cfg1 client w1 res ->
  http.StatusCode res = 201 ->
  sessionFromResponse E res = (Some j, None) ->
  (Status j <> "processing" ->
   Run E cfg e m w
   = Returns (posted cfg e m client w1)
       (None, Some (fmt_Errorf
          ("unexpected session state " +:+ Quote E (Status j) +:+ " in 201 response"))))
  /\ (Status j = "processing" ->
      http.Header_Get (http.Header res) "Location" = EmptyString ->
      Run E cfg e m w
      = Returns (posted cfg e m client w1)
          (None, Some (Errorf_w "cannot determine URI for the session resource: "
                         (errors_New "no Location header found in response"))))
  /\ (forall err,
        Status j = "processing" ->
        ExtractLocation E res (SubmitURI cfg) = inl err ->
        Run E cfg e m w
        = Returns (posted cfg e m client w1)
            (None, Some (Errorf_w "cannot determine URI for the session resource: " err)))
  /\ (forall uri,
        Status j = "processing" ->
        ExtractLocation E res (SubmitURI cfg) = inr uri ->
        exists w3 r,
          pollForSubmissionCompletion E cfg1 uri (posted cfg e m client w1)
          = Returns w3 r
          /\ returned (Run E cfg e m w) = Some r)
  /\ (count is_get (trace (worldOf (Run E cfg e m w))) <> count is_get (trace w) ->
      Status j = "processing"
      /\ exists uri, ExtractLocation E res (SubmitURI cfg) = inr uri).
Proof.
  intros Hsub Hcode Hdec.
  assert (Hbad : Status j <> "processing" ->
    Run E cfg e m w
    = Returns (posted cfg e m client w1)
        (None, Some (fmt_Errorf
           ("unexpected session state " +:+ Quote E (Status j) +:+ " in 201 response")))).
  { intros Hst. run_to_response Hsub. rewrite Hcode, Hdec. simpl.
    destruct (String.eqb_spec (Status j) common.APIStatusProcessing);
      [contradiction|reflexivity]. }
  assert (Hnoloc : forall err,
    Status j = "processing" ->
    ExtractLocation E res (SubmitURI cfg) = inl err ->
    Run E cfg e m w
    = Returns (posted cfg e m client w1)
        (None, Some (Errorf_w "cannot determine URI for the session resource: " err))).
  { intros err Hst Hloc. run_to_response Hsub. rewrite Hcode, Hdec, Hst, Hloc.
    reflexivity. }
  assert (Htrace : count is_get (trace (posted cfg e m client w1)) = count is_get (trace w)).
  { destruct Hsub as (_ & Hinit & _).
    destruct (initClient_cases cfg w) as (? & ? & ? & Heq & Ht & _).
    rewrite Hinit in Heq. injection Heq as <- <- <-.
    unfold posted, emit; simpl. rewrite count_app, Ht. unfold count; simpl. lia. }
  split; [assumption|]. split; [|split; [assumption|split]].
  - intros Hst Hloc. apply Hnoloc; [assumption|].
    unfold ExtractLocation. rewrite Hloc. reflexivity.
  - intros uri Hst Hloc.
    destruct (Run_polls cfg e m w cfg1 client w1 res j uri Hsub Hcode Hdec Hst Hloc)
      as (w3 & r & evs & Hpoll & _ & _ & Hrun).
    exists w3, r. split; [assumption|]. rewrite Hrun. reflexivity.
  - intros Hget.
    destruct (String.eqb_spec (Status j) "processing") as [Hst|Hst].
    2:{ rewrite (Hbad Hst) in Hget. simpl in Hget. contradiction. }
    split; [assumption|].
    destruct (ExtractLocation E res (SubmitURI cfg)) as [err|uri] eqn:Hloc; [|eauto].
    rewrite (Hnoloc err Hst eq_refl) in Hget. simpl in Hget. contradiction.
Qed.

(** *** The session record on the wire *)











(** C7: [SetSubmitURI] fails and leaves the whole configuration, its TLS
    flag and submit URI included, as it was when the string does not parse
    or parses to a URI that is not absolute. When the string parses to an
    absolute URI it succeeds, stores the string as submit URI, sets the TLS
    flag to whether the scheme is [https], and keeps the other fields. *)
Theorem SetSubmitURI_contract (cfg : SubmitConfig) (uri : string) :
  (forall err,
      url_Parse E uri = inl err ->
      SetSubmitURI E cfg uri = (cfg, Some (Errorf_w "malformed URI: " err)))
  /\ (forall u,
        url_Parse E uri = inr u ->
        IsAbs u = false ->
        SetSubmitURI E cfg uri = (cfg, Some (errors_New "uri is not absolute")))
  /\ (forall u,
        url_Parse E uri = inr u ->
        IsAbs u = true ->
        exists cfg',
          SetSubmitURI E cfg uri = (cfg', None)
          /\ SubmitURI cfg' = uri
          /\ (UseTLS cfg' = true <-> Scheme u = "https")
          /\ (UseTLS cfg' = false <-> Scheme u <> "https")
          /\ CACerts cfg' = CACerts cfg
          /\ Client cfg' = Client cfg
          /\ Auth cfg' = Auth cfg
          /\ DeleteSession cfg' = DeleteSession cfg
          /\ IsInsecure cfg' = IsInsecure cfg).
Proof.
  unfold SetSubmitURI. repeat split.
  - intros err ->. reflexivity.
  - intros u -> ->. reflexivity.
  - intros u -> ->. simpl. eexists. split; [reflexivity|]. simpl.
    destruct (String.eqb_spec (Scheme u) "https"); repeat split; congruence.
Qed.

(** C8: with an empty submit URI [Run] returns a nil record and the error
    of a bad configuration (the configuration error of the specification),
    in the world it started from: no client has
    been created and no request has been sent. *)
Theorem Run_no_submit_uri
    (cfg : SubmitConfig) (e : list Byte.byte) (m : string) (w : World) :
  SubmitURI cfg = EmptyString ->
  Run E cfg e m w
  = Returns w (None, Some (errors_New "bad configuration: no API endpoint")).
Proof. intros Huri. unfold Run, check. rewrite Huri. reflexivity. Qed.

(** C9: every invocation of [Run] returns (it never panics), and what it
    returns is either a record with a nil error, the status of the record
    being [success], or a nil record with an error. *)
Theorem Run_result_exclusive
    (cfg : SubmitConfig) (e : list Byte.byte) (m : string) (w : World) :
  exists w' r,
    Run E cfg e m w = Returns w' r
    /\ ((exists j, r = (Some j, None) /\ Status j = "success")
        \/ (exists err, r = (None, Some err)))
    /\ (fst r <> None <-> snd r = None).
Proof.
  destruct (Run_footprint cfg e m w) as (w' & r & evs & Hrun & Hr & _).
  exists w', r. split; [assumption|]. split; [exact Hr|].
  destruct Hr as [(j & -> & _)|(err & ->)]; simpl; split; congruence.
Qed.

Lemma initError_world (cfg : SubmitConfig) (w w' : World) :
  initError E cfg w = initError E cfg w'.
Proof.
  unfold initError, initClient. destruct (Client cfg); [reflexivity|].
  destruct (UseTLS cfg); [|reflexivity]. simpl.
  destruct (IsInsecure cfg); [reflexivity|].
  unfold bind, NewTLSClient. destruct (LoadCACerts E (CACerts cfg)); reflexivity.
Qed.

Lemma heapAfterInit_fresh (cfg : SubmitConfig) (w : World) :
  Client cfg = None ->
  initError E cfg w = None ->
  heapAfterInit E cfg w = (heap w ++ [defaultClient cfg])%list.
Proof.
  unfold heapAfterInit, initError, initClient, defaultClient. intros ->.
  destruct (UseTLS cfg); [|reflexivity]. simpl.
  destruct (IsInsecure cfg); [reflexivity|].
  unfold bind, NewTLSClient. destruct (LoadCACerts E (CACerts cfg)); [discriminate|].
  reflexivity.
Qed.

Lemma Run_fresh_once
    (cfg : SubmitConfig) (e : list Byte.byte) (m : string) (w : World) :
  SubmitURI cfg <> EmptyString ->
  Client cfg = None ->
  initError E cfg w = None ->
  exists w' r evs,
    Run E cfg e m w = Returns w' r
    /\ heap w' = (heap w ++ [defaultClient cfg])%list
    /\ trace w' =
         (trace w ++ EvRequest (ReqPost (length (heap w)) e m sessionMediaType
                                 (SubmitURI cfg)) :: evs)%list
    /\ allThrough (length (heap w)) evs.
Proof.
  intros Huri Hc Hinit.
  destruct (Run_footprint cfg e m w)
    as (w' & r & evs0 & Hrun & _ & Htr & _ & Hall & [[Hu _]|(_ & Hheap & Hpost)]);
    [contradiction|].
  destruct (Hpost Hinit) as [evs ->].
  unfold clientOf in *. rewrite Hc in *.
  exists w', r, evs. repeat split; [assumption| |assumption|].
  - rewrite Hheap. apply heapAfterInit_fresh; assumption.
  - inversion Hall; assumption.
Qed.

(** C10: a configuration without client that passes the checks makes [Run]
    create one new client at the end of the heap and send all its requests,
    the POST first, through that client. The configuration itself is an
    argument passed by value and is not handed back, so a second [Run] on
    the same configuration finds no client either: it creates another one,
    at the next address, and works through that one. When a client was
    supplied [Run] creates none and leaves the heap as it was. *)
Theorem Run_fresh_client
    (cfg : SubmitConfig) (e : list Byte.byte) (m : string) (w : World) :
  SubmitURI cfg <> EmptyString ->
  (Client cfg = None ->
   initError E cfg w = None ->
   exists w' r evs w'' r' evs',
     Run E cfg e m w = Returns w' r
     /\ heap w' = (heap w ++ [defaultClient cfg])%list
     /\ trace w' =
          (trace w ++ EvRequest (ReqPost (length (heap w)) e m sessionMediaType
                                  (SubmitURI cfg)) :: evs)%list
     /\ allThrough (length (heap w)) evs
     /\ Run E cfg e m w' = Returns w'' r'
     /\ heap w'' = (heap w ++ [defaultClient cfg; defaultClient cfg])%list
     /\ trace w'' =
          (trace w' ++ EvRequest (ReqPost (S (length (heap w))) e m sessionMediaType
                                   (SubmitURI cfg)) :: evs')%list
     /\ allThrough (S (length (heap w))) evs')
  /\ (forall client,
        Client cfg = Some client ->
        exists w' r evs,
          Run E cfg e m w = Returns w' r
          /\ heap w' = heap w
          /\ trace w' = (trace w ++ evs)%list
          /\ allThrough client evs).
Proof.
  intros Huri. split.
  - intros Hc Hinit.
    destruct (Run_fresh_once cfg e m w Huri Hc Hinit)
      as (w' & r & evs & Hrun & Hheap & Htrace & Hall).
    assert (Hinit' : initError E cfg w' = None)
      by (rewrite (initError_world cfg w' w); assumption).
    destruct (Run_fresh_once cfg e m w' Huri Hc Hinit')
      as (w'' & r' & evs' & Hrun' & Hheap' & Htrace' & Hall').
    assert (Hlen : length (heap w') = S (length (heap w)))
      by (rewrite Hheap, length_app; simpl; lia).
    rewrite Hlen in *.
    exists w', r, evs, w'', r', evs'. repeat split; try assumption.
    rewrite Hheap', Hheap, <- app_assoc. reflexivity.
  - intros client Hc.
    destruct (Run_footprint cfg e m w)
      as (w' & r & evs & Hrun & _ & Htr & _ & Hall & [[Hu _]|(_ & Hheap & _)]);
      [contradiction|].
    unfold clientOf in Hall. rewrite Hc in Hall.
    exists w', r, evs. repeat split; try assumption.
    rewrite Hheap. unfold heapAfterInit.
    rewrite (initClient_supplied cfg client w Hc). reflexivity.
Qed.

(** C6: within the loop of the poller only a decoded session with status
    [processing] leads to another iteration. A GET that cannot be sent, a
    response with a status code other than 200 and a body that cannot be
    decoded each end the poll at once, after that single GET, with the
    corresponding error (transport, protocol and decode error of the
    specification). [Run] as a whole sends at most one POST. *)
Theorem poll_no_retry (client : common.ClientRef) (uri : string) (attempt : Z) (w : World) :
  attempt < MaxAttempts E ->
  let w1 := emit (EvRequest (ReqGet client uri)) w in
  (forall err,
      http_reply E w (ReqGet client uri) = inl err ->
      pollLoop E client uri attempt w
      = Returns w1 (None, Some (Errorf_w "session resource fetch failed: " err)))
  /\ (forall res,
        http_reply E w (ReqGet client uri) = inr res ->
        http.StatusCode res <> 200 ->
        pollLoop E client uri attempt w
        = Returns w1 (None, Some (fmt_Errorf
            ("session resource fetch returned an unexpected status: "
             +:+ http.Status res))))
  /\ (forall res err,
        http_reply E w (ReqGet client uri) = inr res ->
        http.StatusCode res = 200 ->
        sessionFromResponse E res = (None, Some err) ->
        pollLoop E client uri attempt w = Returns w1 (None, Some err))
  /\ (forall w', pollOnce E client uri w = Returns w' None ->
        getProcessing E client uri w)
  /\ (~ getProcessing E client uri w ->
      exists r, pollLoop E client uri attempt w = Returns w1 r)
  /\ (forall cfg e m w0,
        exists w' r evs,
          Run E cfg e m w0 = Returns w' r
          /\ trace w' = (trace w0 ++ evs)%list
          /\ (count is_post evs <= 1)%nat).
Proof.
  intros Hlt w1.
  assert (Hpost : forall cfg e m w0,
            exists w' r evs,
              Run E cfg e m w0 = Returns w' r
              /\ trace w' = (trace w0 ++ evs)%list
              /\ (count is_post evs <= 1)%nat).
  { intros cfg e m w0.
    destruct (Run_footprint cfg e m w0) as (w' & r & evs & Hrun & _ & Htr & Hc & _).
    eauto 6. }
  repeat split; [| | | | |exact Hpost]; clear Hpost.
  - intros err Hreply. rewrite pollLoop_eq.
    destruct (Z_lt_dec attempt (MaxAttempts E)); [|lia].
    unfold pollOnce, bind, HTTPClient_Get. rewrite Hreply. reflexivity.
  - intros res Hreply Hcode. rewrite pollLoop_eq.
    destruct (Z_lt_dec attempt (MaxAttempts E)); [|lia].
    unfold pollOnce, bind, HTTPClient_Get. rewrite Hreply.
    destruct (Z.eqb_spec (http.StatusCode res) http.StatusOK); [contradiction|reflexivity].
  - intros res err Hreply Hcode Hdec. rewrite pollLoop_eq.
    destruct (Z_lt_dec attempt (MaxAttempts E)); [|lia].
    unfold pollOnce, bind, HTTPClient_Get. rewrite Hreply, Hcode, Hdec. reflexivity.
  - intros w' Hw'.
    destruct (pollOnce_cases client uri w) as [[_ Hp]|(r & Hr & _)];
      [assumption|congruence].
  - intros Hn. rewrite pollLoop_eq.
    destruct (Z_lt_dec attempt (MaxAttempts E)); [|lia].
    destruct (pollOnce_cases client uri w) as [[_ Hp]|(r & Hr & _)];
      [contradiction|].
    rewrite Hr. eauto.
Qed.

End Properties.

(** ** The cleanup DELETE *)

(** The poller does not depend on what DELETE requests are answered. *)
Lemma pollLoop_withDeleteReply (E : Env) (d : World -> Request -> option error)
    (client : common.ClientRef) (uri : string) (n : nat) :
  forall (attempt : Z) (w : World),
    Z.to_nat (MaxAttempts E - attempt) = n ->
    pollLoop (withDeleteReply E d) client uri attempt w = pollLoop E client uri attempt w.
Proof.
  induction n as [|n IH]; intros attempt w Hn;
    rewrite (pollLoop_eq E), (pollLoop_eq (withDeleteReply E d));
    change (MaxAttempts (withDeleteReply E d)) with (MaxAttempts E);
    change (pollOnce (withDeleteReply E d) client uri w) with (pollOnce E client uri w);
    destruct (Z_lt_dec attempt (MaxAttempts E)); try reflexivity; try lia.
  destruct (pollOnce E client uri w) as [w' [r|]|w']; try reflexivity.
  apply IH. lia.
Qed.

Lemma poll_withDeleteReply (E : Env) (d : World -> Request -> option error)
    (cfg : SubmitConfig) (uri : string) (w : World) :
  pollForSubmissionCompletion (withDeleteReply E d) cfg uri w
  = pollForSubmissionCompletion E cfg uri w.
Proof.
  unfold pollForSubmissionCompletion, bind. destruct (Client cfg); simpl; [|reflexivity].
  apply (pollLoop_withDeleteReply E d _ _ _ 1 w eq_refl).
Qed.

(** C4: when [Run] reaches polling, the poll itself sends no DELETE. With
    the delete flag set, [Run] then sends one DELETE of the follow-up URI,
    right after the poll, whether the poll gave a record or an error, and
    only writes a log line when the DELETE fails; with the flag unset it
    sends none. In both cases [Run] returns the very pair the poll
    returned, and it returns the same pair whatever the server answers to
    DELETE requests. *)
Theorem Run_delete_on_completion
    (E : Env) (cfg : SubmitConfig) (e : list Byte.byte) (m : string) (w : World)
    (cfg1 : SubmitConfig) (client : common.ClientRef) (w1 : World) (res : http.Response)
    (j : SubmitSession) (uri : string) :
  submitted E cfg e m w cfg1 client w1 res ->
  http.StatusCode res = 201 ->
  sessionFromResponse E res = (Some j, None) ->
  Status j = "processing" ->
  ExtractLocation E res (SubmitURI cfg) = inr uri ->
  exists w3 r w4,
    pollForSubmissionCompletion E cfg1 uri (posted cfg e m client w1) = Returns w3 r
    /\ Run E cfg e m w = Returns w4 r
    /\ trace w4 =
         (trace w3 ++
          if DeleteSession cfg then
            EvRequest (ReqDelete client uri) ::
            match delete_reply E w3 (ReqDelete client uri) with
            | Some derr => [EvLog ("DELETE " +:+ uri +:+ " failed: " +:+ Error derr)]
            | None => []
            end
          else [])%list
    /\ count is_delete (trace w4)
       = (count is_delete (trace w) + if DeleteSession cfg then 1 else 0)%nat
    /\ (forall d, returned (Run (withDeleteReply E d) cfg e m w) = Some r).
Proof.
  intros Hsub Hcode Hdec Hst Hloc.
  destruct (Run_polls E cfg e m w cfg1 client w1 res j uri Hsub Hcode Hdec Hst Hloc)
    as (w3 & r & evs & Hpoll & Htrace & Hevs & Hrun).
  destruct (pollEvents_through _ _ _ _ Hevs) as (_ & _ & Hdels).
  assert (Htrace1 : trace w1 = trace w).
  { destruct Hsub as (_ & Hinit & _).
    destruct (initClient_cases E cfg w) as (? & ? & ? & Heq & Ht & _).
    rewrite Hinit in Heq. injection Heq as <- <- <-. assumption. }
  eexists w3, r, _. split; [assumption|]. split; [exact Hrun|].
  split; [|split].
  - destruct (DeleteSession cfg); [|now rewrite app_nil_r].
    destruct (delete_reply E w3 (ReqDelete client uri)); simpl;
      rewrite <- ?app_assoc; reflexivity.
  - assert (Hw3 : count is_delete (trace w3) = count is_delete (trace w)).
    { rewrite Htrace. unfold posted, emit; simpl.
      rewrite !count_app, Hdels, Htrace1. unfold count; simpl. lia. }
    destruct (DeleteSession cfg); [|lia].
    destruct (delete_reply E w3 (ReqDelete client uri)); simpl;
      rewrite !count_app, Hw3; unfold count; simpl; lia.
  - intros d.
    destruct (Run_polls (withDeleteReply E d) cfg e m w cfg1 client w1 res j uri
                Hsub Hcode Hdec Hst Hloc)
      as (w3' & r' & evs' & Hpoll' & _ & _ & Hrun').
    rewrite poll_withDeleteReply, Hpoll in Hpoll'. injection Hpoll' as <- <-.
    rewrite Hrun'. reflexivity.
Qed.

(** * Further properties of the package *)

Section Failures.

Context (E : Env).

(** Steps through [Run] up to the POST, given that the submit URI is set and
    how [initClient] ended. *)
Ltac run_to_post Huri Hinit Hptr :=
  unfold Run, check;
  match type of Huri with
  | SubmitURI ?cfg <> _ =>
      destruct (String.eqb_spec (SubmitURI cfg) EmptyString); [contradiction|]
  end;
  unfold bind at 1; rewrite Hinit;
  unfold bind at 1; rewrite Hptr; simpl;
  unfold bind at 1; unfold PostResource.

(** Steps through [Run] up to the point where the response to the POST has
    been received, given [H : submitted ...]. *)
Ltac step_to_response H :=
  let Hcheck := fresh "Hcheck" in
  let Hinit := fresh "Hinit" in
  let Hptr := fresh "Hptr" in
  let Hreply := fresh "Hreply" in
  let Huri := fresh "Huri" in
  let Hdel := fresh "Hdel" in
  let Heq := fresh "Heq" in
  destruct H as (Hcheck & Hinit & Hptr & Hreply);
  match type of Hinit with
  | initClient ?E ?cfg ?w = _ =>
      destruct (initClient_cases E cfg w) as (? & ? & ? & Heq & _ & Huri & Hdel & _);
      rewrite Hinit in Heq; injection Heq as <- <- <-;
      run_to_post Hcheck Hinit Hptr; rewrite Huri, Hreply
  end.

(** X1: when the certificates of a TLS client cannot be loaded, [Run]
    returns the loading error as it is, in the world it started from: no
    client has been created and no request has been sent. *)
Theorem Run_init_failure
    (cfg : SubmitConfig) (e : list Byte.byte) (m : string) (w : World) (err : error) :
  SubmitURI cfg <> EmptyString ->
  Client cfg = None ->
  UseTLS cfg = true ->
  IsInsecure cfg = false ->
  LoadCACerts E (CACerts cfg) = Some err ->
  Run E cfg e m w = Returns w (None, Some err).
Proof.
  intros Huri Hc Htls Hins Hload. unfold Run, check.
  destruct (String.eqb_spec (SubmitURI cfg) EmptyString); [contradiction|].
  unfold bind, initClient, NewTLSClient. rewrite Hc, Htls, Hins, Hload. reflexivity.
Qed.

(** X2: when the POST cannot be sent, [Run] returns a nil record and the
    transport error wrapped in [submit request failed], right after that
    one POST; the POST is not sent again and nothing else is sent. *)
Theorem Run_post_failure
    (cfg : SubmitConfig) (e : list Byte.byte) (m : string) (w : World)
    (cfg1 : SubmitConfig) (client : common.ClientRef) (w1 : World) (err : error) :
  SubmitURI cfg <> EmptyString ->
  initClient E cfg w = Returns w1 (cfg1, None) ->
  Client cfg1 = Some client ->
  http_reply E w1 (ReqPost client e m sessionMediaType (SubmitURI cfg)) = inl err ->
  exists rerr,
    Run E cfg e m w = Returns (posted cfg e m client w1) (None, Some rerr)
    /\ Error rerr = "submit request failed: " +:+ Error err
    /\ Unwrap rerr = Some err
    /\ trace (posted cfg e m client w1)
       = (trace w ++ [EvRequest (ReqPost client e m sessionMediaType (SubmitURI cfg))])%list.
Proof.
  intros Huri Hinit Hptr Hreply.
  destruct (initClient_cases E cfg w) as (? & ? & ? & Heq & Ht & Hu & _).
  rewrite Hinit in Heq. injection Heq as <- <- <-.
  exists (Errorf_w "submit request failed: " err). repeat split.
  - run_to_post Huri Hinit Hptr. rewrite Hu, Hreply. reflexivity.
  - unfold posted, emit; simpl. rewrite Ht. reflexivity.
Qed.

(** X3: a response to the POST whose status code is neither 200 nor 201
    makes [Run] return a nil record and an error giving the code in
    decimal, whatever the headers and the body of the response; nothing
    is sent after the POST. *)
Theorem Run_unexpected_status_code
    (cfg : SubmitConfig) (e : list Byte.byte) (m : string) (w : World)
    (cfg1 : SubmitConfig) (client : common.ClientRef) (w1 : World) (res : http.Response) :
  submitted E cfg e m w cfg1 client w1 res ->
  http.StatusCode res <> 200 ->
  http.StatusCode res <> 201 ->
  Run E cfg e m w
  = Returns (posted cfg e m client w1)
      (None, Some (fmt_Errorf
         ("unexpected HTTP response code " +:+ pretty (http.StatusCode res)))).
Proof.
  intros Hsub H200 H201. step_to_response Hsub.
  destruct (Z.eqb_spec (http.StatusCode res) http.StatusOK); [contradiction|].
  destruct (Z.eqb_spec (http.StatusCode res) http.StatusCreated); [contradiction|].
  reflexivity.
Qed.

(** X4: when the response to the POST has status code 200 or 201 and the
    decoder rejects it, [Run] returns the error of the decoder as it is,
    without wrapping it, and sends nothing after the POST. In particular a
    response with a declared length of zero gives [empty body]. *)
Theorem Run_decode_failure
    (cfg : SubmitConfig) (e : list Byte.byte) (m : string) (w : World)
    (cfg1 : SubmitConfig) (client : common.ClientRef) (w1 : World) (res : http.Response) :
  submitted E cfg e m w cfg1 client w1 res ->
  http.StatusCode res = 200 \/ http.StatusCode res = 201 ->
  (forall err,
      sessionFromResponse E res = (None, Some err) ->
      Run E cfg e m w = Returns (posted cfg e m client w1) (None, Some err))
  /\ (http.ContentLength res = 0 ->
      Run E cfg e m w
      = Returns (posted cfg e m client w1) (None, Some (errors_New "empty body"))).
Proof.
  intros Hsub Hcode.
  assert (H : forall err,
             sessionFromResponse E res = (None, Some err) ->
             Run E cfg e m w = Returns (posted cfg e m client w1) (None, Some err)).
  { intros err Hdec. step_to_response Hsub. rewrite Hdec.
    destruct Hcode as [-> | ->]; reflexivity. }
  split; [exact H|].
  intros Hlen. apply H. unfold sessionFromResponse. rewrite Hlen. reflexivity.
Qed.

(** X5: unless the POST is answered with status code 201, the POST is the
    only request [Run] sends: the world it leaves is the one right after
    the POST. This holds with the delete flag set as well, so a session
    completed synchronously is never deleted. *)
Theorem Run_only_post_unless_created
    (cfg : SubmitConfig) (e : list Byte.byte) (m : string) (w : World)
    (cfg1 : SubmitConfig) (client : common.ClientRef) (w1 : World) (res : http.Response) :
  submitted E cfg e m w cfg1 client w1 res ->
  http.StatusCode res <> 201 ->
  worldOf (Run E cfg e m w) = posted cfg e m client w1
  /\ count is_get (trace (worldOf (Run E cfg e m w))) = count is_get (trace w)
  /\ count is_delete (trace (worldOf (Run E cfg e m w))) = count is_delete (trace w).
Proof.
  intros Hsub H201.
  assert (Ht : trace w1 = trace w).
  { destruct Hsub as (_ & Hinit & _).
    destruct (initClient_cases E cfg w) as (? & ? & ? & Heq & Ht & _).
    rewrite Hinit in Heq. injection Heq as <- <- <-. assumption. }
  assert (Hw : worldOf (Run E cfg e m w) = posted cfg e m client w1).
  { step_to_response Hsub.
    destruct (Z.eqb_spec (http.StatusCode res) http.StatusOK) as [H200|H200]; simpl.
    - destruct (sessionFromResponse_cases E res) as [[j Hj]|[err Hj]]; rewrite Hj;
        [|reflexivity].
      destruct (String.eqb (Status j) common.APIStatusSuccess); [reflexivity|].
      destruct (String.eqb (Status j) common.APIStatusFailed); reflexivity.
    - destruct (Z.eqb_spec (http.StatusCode res) http.StatusCreated);
        [contradiction|reflexivity]. }
  rewrite Hw. unfold posted, emit; simpl. rewrite !count_app, Ht.
  unfold count; simpl. repeat split; lia.
Qed.

(** X6: once the checks have passed and a client is in place, the first
    thing [Run] does is one POST to the submit URI, through the client of
    the configuration, carrying the payload and the media type of the
    caller unchanged, with the session media type as [Accept] header; no
    other POST follows. *)
Theorem Run_post_request
    (cfg : SubmitConfig) (e : list Byte.byte) (m : string) (w : World) :
  SubmitURI cfg <> EmptyString ->
  initError E cfg w = None ->
  exists w' r rest,
    Run E cfg e m w = Returns w' r
    /\ trace w' =
         (trace w ++
          EvRequest (ReqPost (clientOf cfg w) e m
                       "application/vnd.veraison.provisioning-session+json"
                       (SubmitURI cfg)) :: rest)%list
    /\ count is_post rest = O.
Proof.
  intros Huri Hinit.
  destruct (Run_footprint E cfg e m w)
    as (w' & r & evs & Hrun & _ & Htr & Hposts & _ & [[Hu _]|(_ & _ & Hpost)]);
    [contradiction|].
  destruct (Hpost Hinit) as [rest ->].
  exists w', r, rest. repeat split; try assumption.
  change (EvRequest _ :: rest)%list with ([EvRequest (ReqPost (clientOf cfg w) e m
            sessionMediaType (SubmitURI cfg))] ++ rest)%list in Hposts.
  rewrite count_app in Hposts. unfold count in Hposts at 1. simpl in Hposts. lia.
Qed.

End Failures.

Section Poller.

Context (E : Env).

Lemma idle_counts (client : common.ClientRef) (uri : string) (k : nat) :
  forall w,
    count is_get (trace (idle E client uri k w)) = (count is_get (trace w) + k)%nat
    /\ count is_sleep (trace (idle E client uri k w)) = (count is_sleep (trace w) + k)%nat
    /\ heap (idle E client uri k w) = heap w.
Proof.
  induction k as [|k IH]; intros w; simpl; [repeat split; lia|].
  destruct (IH (emit (EvSleep (PollPeriod E)) (emit (EvRequest (ReqGet client uri)) w)))
    as (Hg & Hs & Hh).
  rewrite Hg, Hs, Hh. unfold emit; simpl. rewrite !count_app.
  unfold count; simpl. repeat split; lia.
Qed.

(** The poll ends with the verdict of the first pass of the loop body that
    does not ask for another pass. *)
Lemma pollLoop_stops (client : common.ClientRef) (uri : string)
    (r : option SubmitSession * option error) (w' : World) (k : nat) :
  forall (attempt : Z) (w : World),
    (k < Z.to_nat (MaxAttempts E - attempt))%nat ->
    (forall i, (i < k)%nat -> getProcessing E client uri (idle E client uri i w)) ->
    pollOnce E client uri (idle E client uri k w) = Returns w' (Some r) ->
    pollLoop E client uri attempt w = Returns w' r.
Proof.
  induction k as [|k IH]; intros attempt w Hk Hall Hstop; rewrite pollLoop_eq;
    (destruct (Z_lt_dec attempt (MaxAttempts E)); [|lia]).
  - simpl in Hstop. rewrite Hstop. reflexivity.
  - rewrite (pollOnce_processing E client uri w (Hall O ltac:(lia))).
    apply IH; [lia| |assumption].
    intros i Hi. apply (Hall (S i)). lia.
Qed.

(** X7: the poll ends at the first answer that is not a [processing]
    session. When that answer is a [failed] session the poll returns a nil
    record and the error [submission failed], followed by a colon and the
    failure reason when the session carries one; when it is a session in
    any state other than [success], [failed] and [processing] the poll
    returns a nil record and an error naming the state as unexpected. No
    sleep follows the last GET in either case. *)
Theorem poll_terminal_statuses
    (cfg : SubmitConfig) (client : common.ClientRef) (uri : string) (w : World)
    (k : nat) (j : SubmitSession) :
  Client cfg = Some client ->
  (k < pollBudget E)%nat ->
  (forall i, (i < k)%nat -> getProcessing E client uri (idle E client uri i w)) ->
  getYields E client uri (idle E client uri k w) j ->
  (Status j = "failed" ->
   pollForSubmissionCompletion E cfg uri w
   = Returns (emit (EvRequest (ReqGet client uri)) (idle E client uri k w))
       (None, Some (errors_New
          match FailureReason j with
          | Some reason => "submission failed: " +:+ reason
          | None => "submission failed"
          end)))
  /\ (Status j <> "success" -> Status j <> "failed" -> Status j <> "processing" ->
      pollForSubmissionCompletion E cfg uri w
      = Returns (emit (EvRequest (ReqGet client uri)) (idle E client uri k w))
          (None, Some (fmt_Errorf
             ("unexpected session state " +:+ Quote E (Status j) +:+ " in 200 response")))).
Proof.
  intros Hc Hk Hall (res & Hreply & Hcode & Hdec).
  unfold pollForSubmissionCompletion, bind. rewrite Hc. simpl.
  split.
  - intros Hst. apply pollLoop_stops with (k := k); [exact Hk|exact Hall|].
    unfold pollOnce, bind, HTTPClient_Get. rewrite Hreply, Hcode, Hdec, Hst. simpl.
    unfold submissionFailed. destruct (FailureReason j); reflexivity.
  - intros Hs Hf Hp. apply pollLoop_stops with (k := k); [exact Hk|exact Hall|].
    unfold pollOnce, bind, HTTPClient_Get. rewrite Hreply, Hcode, Hdec. simpl.
    destruct (String.eqb_spec (Status j) common.APIStatusSuccess); [contradiction|].
    destruct (String.eqb_spec (Status j) common.APIStatusFailed); [contradiction|].
    destruct (String.eqb_spec (Status j) common.APIStatusProcessing); [contradiction|].
    reflexivity.
Qed.

Lemma pollLoop_shape (client : common.ClientRef) (uri : string) (n : nat) :
  forall (attempt : Z) (w : World),
    Z.to_nat (MaxAttempts E - attempt) = n ->
    exists k w' r,
      pollLoop E client uri attempt w = Returns w' r
      /\ (forall i, (i < k)%nat -> getProcessing E client uri (idle E client uri i w))
      /\ ((k = n /\ w' = idle E client uri k w /\ r = (None, Some pollExhausted))
          \/ ((k < n)%nat
              /\ ~ getProcessing E client uri (idle E client uri k w)
              /\ w' = emit (EvRequest (ReqGet client uri)) (idle E client uri k w)
              /\ settled r)).
Proof.
  induction n as [|n IH]; intros attempt w Hn; rewrite pollLoop_eq.
  - destruct (Z_lt_dec attempt (MaxAttempts E)); [lia|].
    exists O, w, (None, Some pollExhausted). split; [reflexivity|].
    split; [intros i Hi; lia|]. left. auto.
  - destruct (Z_lt_dec attempt (MaxAttempts E)); [|lia].
    destruct (pollOnce_cases E client uri w) as [[Hp Hproc]|(r & Hp & Hr & Hnot)];
      rewrite Hp.
    + destruct (IH (attempt + 1) (emit (EvSleep (PollPeriod E))
                  (emit (EvRequest (ReqGet client uri)) w)))
        as (k & w' & r & Hrun & Hall & Hend); [lia|].
      exists (S k), w', r. split; [assumption|]. split.
      * intros i Hi. destruct i as [|i]; [exact Hproc|]. apply Hall. lia.
      * destruct Hend as [(-> & -> & ->)|(Hk & Hnot & -> & Hr)].
        -- left. auto.
        -- right. repeat split; [lia|assumption|assumption].
    + exists O, (emit (EvRequest (ReqGet client uri)) w), r.
      split; [reflexivity|]. split; [intros i Hi; lia|].
      right. repeat split; [lia|assumption|assumption].
Qed.

(** X8: the shape of every poll. The poller goes through some number [k]
    of rounds, each a GET answered by a [processing] session followed by
    one sleep of the poll period. Either [k] is the whole budget of
    [MaxAttempts - 1] rounds and the poll ends there, after the sleep of
    the last round, with the error of the exhausted budget; or [k] is
    smaller, one more GET follows whose answer is not a [processing]
    session, and the poll ends right after that GET with a settled result.
    So the poller sleeps exactly once per [processing] answer. *)
Theorem poll_shape
    (cfg : SubmitConfig) (client : common.ClientRef) (uri : string) (w : World) :
  Client cfg = Some client ->
  exists k w' r,
    pollForSubmissionCompletion E cfg uri w = Returns w' r
    /\ (forall i, (i < k)%nat -> getProcessing E client uri (idle E client uri i w))
    /\ count is_sleep (trace w') = (count is_sleep (trace w) + k)%nat
    /\ heap w' = heap w
    /\ ((k = Z.to_nat (MaxAttempts E - 1)
         /\ w' = idle E client uri k w
         /\ count is_get (trace w') = (count is_get (trace w) + k)%nat
         /\ r = (None, Some (fmt_Errorf
                  "polling attempts exhausted, session resource state still not complete")))
        \/ ((k < Z.to_nat (MaxAttempts E - 1))%nat
            /\ ~ getProcessing E client uri (idle E client uri k w)
            /\ w' = emit (EvRequest (ReqGet client uri)) (idle E client uri k w)
            /\ count is_get (trace w') = (count is_get (trace w) + S k)%nat
            /\ settled r)).
Proof.
  intros Hc. unfold pollForSubmissionCompletion, bind. rewrite Hc. simpl.
  destruct (pollLoop_shape client uri _ 1 w eq_refl) as (k & w' & r & Hrun & Hall & Hend).
  destruct (idle_counts client uri k w) as (Hg & Hs & Hh).
  exists k, w', r. split; [assumption|]. split; [assumption|].
  destruct Hend as [(Hk & -> & ->)|(Hk & Hnot & -> & Hr)].
  - split; [assumption|]. split; [assumption|]. left. repeat split; assumption.
  - unfold emit; simpl. rewrite !count_app, Hg, Hs. unfold count; simpl.
    split; [lia|]. split; [assumption|]. right. repeat split; [assumption|assumption|lia|assumption].
Qed.

End Poller.

Section Configuration.

Context (E : Env).

Lemma store_Auth_valid (p : common.ClientRef) (a : option IAuthenticator)
    (cl : common.Client) (w : World) :
  heap w !! p = Some cl ->
  exists w',
    store_Auth p a w = Returns w' tt
    /\ heap w' = <[p := {| common.HTTPClient := common.HTTPClient cl;
                           common.Auth := a |}]> (heap w)
    /\ trace w' = trace w.
Proof.
  intros Hp. unfold store_Auth. rewrite Hp. eexists. repeat split.
Qed.

(** X9: [SetClient] refuses a nil client and then changes nothing. Given a
    client it stores the pointer in the configuration, keeps the other
    fields, and, when the configuration has an authenticator, writes that
    authenticator into the client object itself; when it has none, the
    client keeps the authenticator it came with. The transport of the
    client, the other clients and the trace are left alone. *)
Theorem SetClient_contract (cfg : SubmitConfig) (w : World) :
  SetClient cfg None w = Returns w (cfg, Some (errors_New "no client supplied"))
  /\ (forall p cl,
        heap w !! p = Some cl ->
        exists w',
          SetClient cfg (Some p) w = Returns w' (set_Client cfg (Some p), None)
          /\ authAt w' p = Some (match Auth cfg with
                                 | Some a => Some a
                                 | None => common.Auth cl
                                 end)
          /\ transportAt w' p = Some (common.HTTPClient cl)
          /\ (forall q, q <> p -> heap w' !! q = heap w !! q)
          /\ length (heap w') = length (heap w)
          /\ trace w' = trace w).
Proof.
  split; [reflexivity|].
  intros p cl Hp. unfold SetClient, bind, authAt, transportAt.
  destruct (Auth cfg) as [a|] eqn:Ha.
  - destruct (store_Auth_valid p (Some a) cl w Hp) as (w' & Hst & Hheap & Htr).
    rewrite Hst. exists w'. split; [reflexivity|]. rewrite Hheap.
    rewrite list_lookup_insert_eq by (eapply lookup_lt_Some; eassumption).
    repeat split; [|apply length_insert|assumption].
    intros q Hq. apply list_lookup_insert_ne. congruence.
  - exists w. split; [reflexivity|]. rewrite Hp. repeat split.
Qed.

(** X10: [SetAuth] stores the authenticator in the configuration and, when
    the configuration has a client, in that client object as well, so that
    afterwards the configuration and its client carry the same
    authenticator, also when that is nil. The transport of the client, the
    other clients, the other fields and the trace are left alone. *)
Theorem SetAuth_contract (cfg : SubmitConfig) (a : option IAuthenticator) (w : World) :
  (Client cfg = None -> SetAuth cfg a w = Returns w (set_Auth cfg a))
  /\ (forall p cl,
        Client cfg = Some p ->
        heap w !! p = Some cl ->
        exists w',
          SetAuth cfg a w = Returns w' (set_Auth cfg a)
          /\ authAt w' p = Some (Auth (set_Auth cfg a))
          /\ Auth (set_Auth cfg a) = a
          /\ transportAt w' p = Some (common.HTTPClient cl)
          /\ (forall q, q <> p -> heap w' !! q = heap w !! q)
          /\ length (heap w') = length (heap w)
          /\ trace w' = trace w).
Proof.
  unfold SetAuth, bind, authAt, transportAt. simpl. split.
  - intros ->. reflexivity.
  - intros p cl -> Hp.
    destruct (store_Auth_valid p a cl w Hp) as (w' & Hst & Hheap & Htr).
    rewrite Hst. exists w'. split; [reflexivity|]. rewrite Hheap.
    rewrite list_lookup_insert_eq by (eapply lookup_lt_Some; eassumption).
    repeat split; [|apply length_insert|assumption].
    intros q Hq. apply list_lookup_insert_ne. congruence.
Qed.

(** X11: on a configuration that has no client yet, setting a client and
    a non-nil authenticator gives the same configuration and the same
    client object in either order: the client ends up carrying the
    authenticator. With a nil authenticator the order matters: [SetAuth]
    after [SetClient] clears the authenticator of the client, whereas
    [SetClient] after [SetAuth] leaves the client the authenticator it came
    with. *)
Theorem SetClient_SetAuth_order
    (cfg : SubmitConfig) (p : common.ClientRef) (cl : common.Client) (w : World) :
  Client cfg = None ->
  heap w !! p = Some cl ->
  (forall a,
      exists w',
        clientThenAuth cfg p (Some a) w = Returns w' (set_Auth (set_Client cfg (Some p)) (Some a))
        /\ authThenClient cfg p (Some a) w = Returns w' (set_Client (set_Auth cfg (Some a)) (Some p))
        /\ set_Auth (set_Client cfg (Some p)) (Some a)
           = set_Client (set_Auth cfg (Some a)) (Some p)
        /\ authAt w' p = Some (Some a))
  /\ (Auth cfg = None ->
      exists w1 w2,
        clientThenAuth cfg p None w = Returns w1 (set_Auth (set_Client cfg (Some p)) None)
        /\ authAt w1 p = Some None
        /\ authThenClient cfg p None w = Returns w2 (set_Client (set_Auth cfg None) (Some p))
        /\ authAt w2 p = Some (common.Auth cl)).
Proof.
  intros Hc Hp.
  assert (Hlt : (p < length (heap w))%nat) by (eapply lookup_lt_Some; eassumption).
  split.
  - intros a.
    exists {| heap := <[p := {| common.HTTPClient := common.HTTPClient cl;
                               common.Auth := Some a |}]> (heap w);
              trace := trace w |}.
    unfold clientThenAuth, authThenClient, SetClient, SetAuth, bind, authAt. simpl.
    rewrite Hc. simpl. repeat split.
    + destruct (Auth cfg) as [a0|]; unfold store_Auth; simpl.
      * rewrite Hp. simpl. rewrite list_lookup_insert_eq by assumption. simpl.
        rewrite list_insert_insert_eq. reflexivity.
      * rewrite Hp. reflexivity.
    + unfold store_Auth. rewrite Hp. reflexivity.
    + rewrite list_lookup_insert_eq by assumption. reflexivity.
  - intros Ha.
    exists {| heap := <[p := {| common.HTTPClient := common.HTTPClient cl;
                               common.Auth := None |}]> (heap w);
              trace := trace w |}, w.
    unfold clientThenAuth, authThenClient, SetClient, SetAuth, bind, authAt. simpl.
    rewrite Hc, Ha. simpl. unfold store_Auth. rewrite Hp. simpl.
    rewrite list_lookup_insert_eq by assumption. repeat split.
Qed.

Lemma initClient_again (cfg cfg1 : SubmitConfig) (w w1 : World) :
  initClient E cfg w = Returns w1 (cfg1, None) ->
  exists client, Client cfg1 = Some client.
Proof.
  intros Hinit.
  destruct (initClient_cases E cfg w) as (? & ? & ? & Heq & _ & _ & _ & Hptr).
  rewrite Hinit in Heq. injection Heq as <- <- <-. eauto.
Qed.

(** X12: the client is created once. After a successful [initClient] the
    configuration has a client, so a further [initClient] returns at once,
    and [Run] on that configuration creates no further client and sends
    its requests through the existing one. *)
Theorem initClient_once
    (cfg cfg1 : SubmitConfig) (w w1 : World) (e : list Byte.byte) (m : string) :
  initClient E cfg w = Returns w1 (cfg1, None) ->
  exists client,
    Client cfg1 = Some client
    /\ initClient E cfg1 w1 = Returns w1 (cfg1, None)
    /\ exists w' r evs,
         Run E cfg1 e m w1 = Returns w' r
         /\ heap w' = heap w1
         /\ trace w' = (trace w1 ++ evs)%list
         /\ allThrough client evs.
Proof.
  intros Hinit. destruct (initClient_again cfg cfg1 w w1 Hinit) as [client Hc].
  exists client. split; [assumption|].
  pose proof (initClient_supplied E cfg1 client w1 Hc) as Hinit1.
  split; [assumption|].
  destruct (Run_footprint E cfg1 e m w1)
    as (w' & r & evs & Hrun & _ & Htr & _ & Hall & [[_ ->]|(_ & Hheap & _)]).
  - exists w1, r, evs. unfold clientOf in Hall. rewrite Hc in Hall. auto.
  - exists w', r, evs. unfold clientOf in Hall. rewrite Hc in Hall.
    repeat split; try assumption.
    rewrite Hheap. unfold heapAfterInit. rewrite Hinit1. reflexivity.
Qed.

(** X13: the scheme of the submit URI selects the transport of the default
    client. On a configuration without client, after a successful
    [SetSubmitURI], [initClient] builds a plain client when the scheme is
    not [https], whatever the insecure flag and the CA certificates; with
    [https] it builds a TLS client without certificate verification when
    the insecure flag is set, without loading any certificate, and
    otherwise a TLS client trusting the CA certificates of the
    configuration, or fails with the loading error and creates nothing.
    The new client carries the authenticator of the configuration. *)
Theorem SetSubmitURI_selects_transport
    (cfg : SubmitConfig) (uri : string) (u : URL) (w : World) :
  url_Parse E uri = inr u ->
  IsAbs u = true ->
  Client cfg = None ->
  exists cfg',
    SetSubmitURI E cfg uri = (cfg', None)
    /\ let made tr :=
         Returns {| heap := heap w ++ [{| common.HTTPClient := tr;
                                          common.Auth := Auth cfg |}];
                    trace := trace w |}
           (set_Client cfg' (Some (length (heap w))), @None error) in
       (Scheme u <> "https" -> initClient E cfg' w = made http.PlainTransport)
       /\ (Scheme u = "https" -> IsInsecure cfg = true ->
           initClient E cfg' w = made http.InsecureTLSTransport)
       /\ (Scheme u = "https" -> IsInsecure cfg = false ->
           LoadCACerts E (CACerts cfg) = None ->
           initClient E cfg' w = made (http.TLSTransport (CACerts cfg)))
       /\ (forall err,
             Scheme u = "https" -> IsInsecure cfg = false ->
             LoadCACerts E (CACerts cfg) = Some err ->
             initClient E cfg' w = Returns w (set_Client cfg' None, Some err)).
Proof.
  intros Hparse Habs Hc. unfold SetSubmitURI. rewrite Hparse, Habs. simpl.
  eexists. split; [reflexivity|]. unfold initClient. simpl. rewrite Hc.
  repeat split.
  - intros Hs. destruct (String.eqb_spec (Scheme u) "https"); [contradiction|reflexivity].
  - intros -> ->. reflexivity.
  - intros -> -> Hload. simpl. unfold bind, NewTLSClient. rewrite Hload. reflexivity.
  - intros err -> -> Hload. simpl. unfold bind, NewTLSClient. rewrite Hload. reflexivity.
Qed.

(** X14: a submit URI that [SetSubmitURI] accepted passes [check], provided
    the URL parser does not find a scheme in the empty string: the
    configuration error of [Run] cannot follow a successful
    [SetSubmitURI]. *)
Theorem SetSubmitURI_then_check (cfg cfg' : SubmitConfig) (uri : string) :
  (forall u, url_Parse E EmptyString = inr u -> IsAbs u = false) ->
  SetSubmitURI E cfg uri = (cfg', None) ->
  SubmitURI cfg' = uri /\ uri <> EmptyString /\ check cfg' = None.
Proof.
  intros Hempty. unfold SetSubmitURI.
  destruct (url_Parse E uri) as [err|u] eqn:Hparse; [discriminate|].
  destruct (IsAbs u) eqn:Habs; simpl; [|discriminate].
  intros [= <-]. simpl.
  assert (Hne : uri <> EmptyString).
  { intros ->. rewrite (Hempty u Hparse) in Habs. discriminate. }
  repeat split; [assumption|].
  unfold check. simpl. destruct (String.eqb_spec uri ""); [contradiction|reflexivity].
Qed.

(** X15: the insecure flag only matters when TLS is used, and the CA
    certificates only when TLS is used with verification: otherwise
    [SetIsInsecure] and [SetCerts] change neither the client that
    [initClient] builds nor its outcome. *)
Theorem flags_without_effect
    (cfg : SubmitConfig) (val : bool) (paths : list string) (w : World) :
  (UseTLS cfg = false ->
   heapAfterInit E (SetIsInsecure cfg val) w = heapAfterInit E cfg w
   /\ initError E (SetIsInsecure cfg val) w = None)
  /\ (UseTLS cfg = false \/ IsInsecure cfg = true ->
      heapAfterInit E (SetCerts cfg paths) w = heapAfterInit E cfg w
      /\ initError E (SetCerts cfg paths) w = None
      /\ initError E cfg w = None).
Proof.
  unfold heapAfterInit, initError, initClient. simpl. split.
  - intros ->. simpl. destruct (Client cfg); split; reflexivity.
  - intros Hflags. destruct (Client cfg); [repeat split|].
    destruct (UseTLS cfg); simpl; [|repeat split].
    destruct Hflags as [Hf| ->]; [discriminate|]. repeat split.
Qed.

End Configuration.

Section Asynchronous.

Context (E : Env).

(** X16: the asynchronous path end to end. When the POST is answered with
    201, a [processing] session and a location, the next [k] GETs of that
    location are answered with [processing] sessions and the one after
    them, still within the budget, with a [success] session, [Run] returns
    that last session and a nil error; its requests are the POST, the
    [k + 1] GETs and, with the delete flag set, one DELETE. *)
Theorem Run_async_success
    (cfg : SubmitConfig) (e : list Byte.byte) (m : string) (w : World)
    (cfg1 : SubmitConfig) (client : common.ClientRef) (w1 : World) (res : http.Response)
    (j0 j : SubmitSession) (uri : string) (k : nat) :
  submitted E cfg e m w cfg1 client w1 res ->
  http.StatusCode res = 201 ->
  sessionFromResponse E res = (Some j0, None) ->
  Status j0 = "processing" ->
  ExtractLocation E res (SubmitURI cfg) = inr uri ->
  (k < Z.to_nat (MaxAttempts E - 1))%nat ->
  (forall i, (i < k)%nat ->
     getProcessing E client uri (idle E client uri i (posted cfg e m client w1))) ->
  getYields E client uri (idle E client uri k (posted cfg e m client w1)) j ->
  Status j = "success" ->
  Run E cfg e m w
  = Returns
      (afterCleanup E cfg client uri
         (emit (EvRequest (ReqGet client uri))
            (idle E client uri k (posted cfg e m client w1))))
      (Some j, None).
Proof.
  intros Hsub Hcode Hdec Hst Hloc Hk Hall Hj Hs.
  assert (Hc : Client cfg1 = Some client) by apply Hsub.
  destruct (Run_polls E cfg e m w cfg1 client w1 res j0 uri Hsub Hcode Hdec Hst Hloc)
    as (w3 & r & evs & Hpoll & _ & _ & Hrun).
  unfold pollForSubmissionCompletion, bind in Hpoll. rewrite Hc in Hpoll. simpl in Hpoll.
  rewrite (pollLoop_succeeds E client uri j k 1 _ Hk Hall Hj Hs) in Hpoll.
  injection Hpoll as <- <-. exact Hrun.
Qed.

(** X17: the asynchronous path when the budget runs out. When the POST is
    answered with 201, a [processing] session and a location, and the
    first [MaxAttempts - 1] GETs of that location are all answered with
    [processing] sessions, [Run] returns a nil record and the error of the
    exhausted budget; with the delete flag set it still sends the DELETE
    before returning. *)
Theorem Run_async_timeout
    (cfg : SubmitConfig) (e : list Byte.byte) (m : string) (w : World)
    (cfg1 : SubmitConfig) (client : common.ClientRef) (w1 : World) (res : http.Response)
    (j0 : SubmitSession) (uri : string) :
  submitted E cfg e m w cfg1 client w1 res ->
  http.StatusCode res = 201 ->
  sessionFromResponse E res = (Some j0, None) ->
  Status j0 = "processing" ->
  ExtractLocation E res (SubmitURI cfg) = inr uri ->
  (forall i, (i < Z.to_nat (MaxAttempts E - 1))%nat ->
     getProcessing E client uri (idle E client uri i (posted cfg e m client w1))) ->
  Run E cfg e m w
  = Returns
      (afterCleanup E cfg client uri
         (idle E client uri (Z.to_nat (MaxAttempts E - 1)) (posted cfg e m client w1)))
      (None, Some (fmt_Errorf
         "polling attempts exhausted, session resource state still not complete")).
Proof.
  intros Hsub Hcode Hdec Hst Hloc Hall.
  assert (Hc : Client cfg1 = Some client) by apply Hsub.
  destruct (Run_polls E cfg e m w cfg1 client w1 res j0 uri Hsub Hcode Hdec Hst Hloc)
    as (w3 & r & evs & Hpoll & _ & _ & Hrun).
  unfold pollForSubmissionCompletion, bind in Hpoll. rewrite Hc in Hpoll. simpl in Hpoll.
  rewrite (pollLoop_exhausts E client uri _ 1 _ eq_refl Hall) in Hpoll.
  injection Hpoll as <- <-. exact Hrun.
Qed.

Lemma initClient_SetDeleteSession (cfg : SubmitConfig) (b : bool) (w : World) :
  initClient E (SetDeleteSession cfg b) w
  = match initClient E cfg w with
    | Returns w1 (cfg1, ierr) => Returns w1 (SetDeleteSession cfg1 b, ierr)
    | Panics w1 => Panics w1
    end.
Proof.
  unfold initClient. simpl. destruct (Client cfg); [reflexivity|].
  destruct (UseTLS cfg); simpl; [|reflexivity].
  destruct (IsInsecure cfg); [reflexivity|].
  unfold bind, NewTLSClient. destruct (LoadCACerts E (CACerts cfg)); reflexivity.
Qed.

(** X18: the delete flag never changes what [Run] returns: with the flag
    set to any value by [SetDeleteSession], [Run] returns the same record
    and error as without. *)
Theorem Run_ignores_delete_flag
    (cfg : SubmitConfig) (b : bool) (e : list Byte.byte) (m : string) (w : World) :
  returned (Run E (SetDeleteSession cfg b) e m w) = returned (Run E cfg e m w).
Proof.
  unfold Run, check. simpl.
  destruct (String.eqb (SubmitURI cfg) ""); [reflexivity|].
  unfold bind. rewrite initClient_SetDeleteSession.
  destruct (initClient E cfg w) as [w1 [cfg1 [ierr|]]|w1]; simpl; try reflexivity.
  destruct (Client cfg1) as [client|] eqn:Hc; simpl; [|reflexivity].
  unfold PostResource.
  destruct (http_reply E w1 _) as [err|res]; [reflexivity|].
  destruct (negb _ && negb _); [reflexivity|].
  destruct (sessionFromResponse E res) as [[j|] [err|]]; try reflexivity.
  destruct (Z.eqb (http.StatusCode res) http.StatusOK).
  { destruct (String.eqb (Status j) common.APIStatusSuccess); [reflexivity|].
    destruct (String.eqb (Status j) common.APIStatusFailed); reflexivity. }
  destruct (negb _); [reflexivity|].
  destruct (ExtractLocation E res (SubmitURI cfg1)) as [err|uri]; [reflexivity|].
  unfold pollForSubmissionCompletion, bind. simpl. rewrite Hc. simpl.
  destruct (pollLoop E client uri 1 _) as [w3 r|w3]; [|reflexivity].
  destruct b, (DeleteSession cfg1); simpl;
    repeat match goal with
           | |- context [delete_reply E ?w ?rq] => destruct (delete_reply E w rq)
           end; reflexivity.
Qed.

End Asynchronous.

(** * The properties at work on the scripted server *)

Import Script.

Lemma Run_no_submit_uri_witness :
  SubmitURI (config EmptyString None true) = EmptyString
  /\ Run (syncEnv (session "success" None)) (config EmptyString None true)
       testEndorsement testEndorsementMediaType world0
     = Returns world0 (None, Some (errors_New "bad configuration: no API endpoint")).
Proof.
  split; [reflexivity|].
  apply (Run_no_submit_uri (syncEnv (session "success" None))). reflexivity.
Defined.

Lemma SetSubmitURI_contract_witness :
  SetSubmitURI successEnv (config EmptyString None false) ":foo"
  = (config EmptyString None false,
     Some (Errorf_w "malformed URI: "
             (fmt_Errorf_wrap
                ("parse " +:+ quote_plain ":foo" +:+ ": missing protocol scheme")
                (errors_New "missing protocol scheme"))))
  /\ SetSubmitURI successEnv (config EmptyString None false)
       "veraison.example/endorsement-provisioning/v1/submit"
     = (config EmptyString None false, Some (errors_New "uri is not absolute"))
  /\ (exists cfg',
        SetSubmitURI successEnv (config EmptyString None false)
          "https://veraison.example/submit" = (cfg', None)
        /\ SubmitURI cfg' = "https://veraison.example/submit"
        /\ UseTLS cfg' = true)
  /\ (exists cfg',
        SetSubmitURI successEnv (config EmptyString None false) testSubmitURI
        = (cfg', None)
        /\ SubmitURI cfg' = testSubmitURI
        /\ UseTLS cfg' = false).
Proof.
  set (E := successEnv). set (cfg := config EmptyString None false).
  split; [|split; [|split]].
  - destruct (SetSubmitURI_contract E cfg ":foo") as (H & _ & _).
    apply H. reflexivity.
  - destruct (SetSubmitURI_contract E cfg
                "veraison.example/endorsement-provisioning/v1/submit") as (_ & H & _).
    apply (H {| Scheme := EmptyString |}); reflexivity.
  - destruct (SetSubmitURI_contract E cfg "https://veraison.example/submit") as (_ & _ & H).
    destruct (H {| Scheme := "https" |} eq_refl eq_refl)
      as (cfg' & Hset & Huri & Htls & _).
    exists cfg'. repeat split; [assumption|assumption|]. apply Htls. reflexivity.
  - destruct (SetSubmitURI_contract E cfg testSubmitURI) as (_ & _ & H).
    destruct (H {| Scheme := "http" |} eq_refl eq_refl)
      as (cfg' & Hset & Huri & _ & Htls & _).
    exists cfg'. repeat split; [assumption|assumption|]. apply Htls. discriminate.
Defined.




Ltac script_submitted :=
  split; [vm_compute; discriminate|]; repeat split; vm_compute; reflexivity.

Ltac script_get j :=
  exists (sessionResponse 200 None j); repeat split; vm_compute; reflexivity.

Lemma poll_attempt_budget_witness :
  Client (supplied false) = Some O
  /\ pollForSubmissionCompletion (asyncEnv 3 [processing; processing; processing] None)
       (supplied false) testSessionURI world1
     = Returns
         (idle (asyncEnv 3 [processing; processing; processing] None)
            O testSessionURI 2 world1)
         (None, Some (fmt_Errorf
            "polling attempts exhausted, session resource state still not complete"))
  /\ count is_get
       (trace (idle (asyncEnv 3 [processing; processing; processing] None)
                 O testSessionURI 2 world1)) = 2%nat
  /\ pollForSubmissionCompletion (asyncEnv 3 [processing; succeeded] None)
       (supplied false) testSessionURI world1
     = Returns
         (emit (EvRequest (ReqGet O testSessionURI))
            (idle (asyncEnv 3 [processing; succeeded] None) O testSessionURI 1 world1))
         (Some succeeded, None).
Proof.
  split; [reflexivity|].
  destruct (poll_attempt_budget (asyncEnv 3 [processing; processing; processing] None)
              (supplied false) O testSessionURI world1 eq_refl) as (_ & Hex & _).
  destruct (poll_attempt_budget (asyncEnv 3 [processing; succeeded] None)
              (supplied false) O testSessionURI world1 eq_refl) as (_ & _ & Hok).
  split; [|split].
  - apply Hex. intros k Hk. change (k < 2)%nat in Hk.
    destruct k as [|[|k]]; [| |lia];
      (exists processing; split; [script_get processing|reflexivity]).
  - apply Hex. intros k Hk. change (k < 2)%nat in Hk.
    destruct k as [|[|k]]; [| |lia];
      (exists processing; split; [script_get processing|reflexivity]).
  - apply (Hok 1%nat succeeded).
    + change (1 < 2)%nat. lia.
    + intros i Hi. destruct i as [|i]; [|lia].
      exists processing; split; [script_get processing|reflexivity].
    + script_get succeeded.
    + reflexivity.
Defined.

Lemma poll_no_retry_witness :
  1 < MaxAttempts (pollEnv (inl noSuchHost))
  /\ pollLoop (pollEnv (inl noSuchHost)) O testSessionURI 1 world1
     = Returns (emit (EvRequest (ReqGet O testSessionURI)) world1)
         (None, Some (Errorf_w "session resource fetch failed: " noSuchHost))
  /\ pollLoop (pollEnv (inr notFound)) O testSessionURI 1 world1
     = Returns (emit (EvRequest (ReqGet O testSessionURI)) world1)
         (None, Some (fmt_Errorf
            "session resource fetch returned an unexpected status: 404 Not Found"))
  /\ pollLoop (pollEnv (inr invalidJSON)) O testSessionURI 1 world1
     = Returns (emit (EvRequest (ReqGet O testSessionURI)) world1)
         (None, Some (Errorf_w "failure decoding session resource: "
            (errors_New "invalid character 'i' looking for beginning of value"))).
Proof.
  split; [reflexivity|]. split; [|split].
  - destruct (poll_no_retry (pollEnv (inl noSuchHost)) O testSessionURI 1 world1 eq_refl)
      as (H & _).
    apply H. reflexivity.
  - destruct (poll_no_retry (pollEnv (inr notFound)) O testSessionURI 1 world1 eq_refl)
      as (_ & H & _).
    apply (H notFound); [reflexivity|vm_compute; discriminate].
  - destruct (poll_no_retry (pollEnv (inr invalidJSON)) O testSessionURI 1 world1 eq_refl)
      as (_ & _ & H & _).
    apply (H invalidJSON); reflexivity.
Defined.

Lemma Run_sync_outcomes_witness :
  submitted (syncEnv succeeded) (supplied false) testEndorsement testEndorsementMediaType
    world1 (supplied false) O world1 (sessionResponse 200 None succeeded)
  /\ Run (syncEnv succeeded) (supplied false) testEndorsement testEndorsementMediaType world1
     = Returns (posted (supplied false) testEndorsement testEndorsementMediaType O world1)
         (Some succeeded, None)
  /\ Run (syncEnv tooLong) (supplied false) testEndorsement testEndorsementMediaType world1
     = Returns (posted (supplied false) testEndorsement testEndorsementMediaType O world1)
         (None, Some (errors_New "submission failed: taking too long"))
  /\ Run (syncEnv (session "failed" None)) (supplied false)
       testEndorsement testEndorsementMediaType world1
     = Returns (posted (supplied false) testEndorsement testEndorsementMediaType O world1)
         (None, Some (errors_New "submission failed"))
  /\ Run (syncEnv whatever) (supplied false) testEndorsement testEndorsementMediaType world1
     = Returns (posted (supplied false) testEndorsement testEndorsementMediaType O world1)
         (None, Some (fmt_Errorf
            ("unexpected session state " +:+ quote_plain "whatever" +:+ " in 200 response"))).
Proof.
  assert (Hsub : forall j,
            submitted (syncEnv j) (supplied false) testEndorsement testEndorsementMediaType
              world1 (supplied false) O world1 (sessionResponse 200 None j))
    by (intros j; script_submitted).
  assert (Hdec : forall j,
            j = succeeded \/ j = tooLong \/ j = session "failed" None \/ j = whatever ->
            sessionFromResponse (syncEnv j) (sessionResponse 200 None j) = (Some j, None))
    by (intros j [-> | [-> | [-> | ->]]]; vm_compute; reflexivity).
  split; [apply Hsub|].
  split; [|split; [|split]].
  - destruct (Run_sync_outcomes (syncEnv succeeded) (supplied false) testEndorsement
                testEndorsementMediaType world1 (supplied false) O world1
                (sessionResponse 200 None succeeded) succeeded) as (H & _);
      [apply Hsub|reflexivity|apply Hdec; auto|].
    apply H. reflexivity.
  - destruct (Run_sync_outcomes (syncEnv tooLong) (supplied false) testEndorsement
                testEndorsementMediaType world1 (supplied false) O world1
                (sessionResponse 200 None tooLong) tooLong) as (_ & H & _);
      [apply Hsub|reflexivity|apply Hdec; auto|].
    apply H. reflexivity.
  - destruct (Run_sync_outcomes (syncEnv (session "failed" None)) (supplied false)
                testEndorsement testEndorsementMediaType world1 (supplied false) O world1
                (sessionResponse 200 None (session "failed" None)) (session "failed" None))
      as (_ & H & _);
      [apply Hsub|reflexivity|apply Hdec; auto|].
    apply H. reflexivity.
  - destruct (Run_sync_outcomes (syncEnv whatever) (supplied false) testEndorsement
                testEndorsementMediaType world1 (supplied false) O world1
                (sessionResponse 200 None whatever) whatever) as (_ & _ & H);
      [apply Hsub|reflexivity|apply Hdec; auto 6|].
    apply H; discriminate.
Defined.

Lemma Run_async_guards_witness :
  submitted (postEnv createdWhatever) (supplied false) testEndorsement
    testEndorsementMediaType world1 (supplied false) O world1 createdWhatever
  /\ http.StatusCode createdWhatever = 201
  /\ sessionFromResponse (postEnv createdWhatever) createdWhatever = (Some whatever, None)
  /\ Run (postEnv createdWhatever) (supplied false) testEndorsement
       testEndorsementMediaType world1
     = Returns (posted (supplied false) testEndorsement testEndorsementMediaType O world1)
         (None, Some (fmt_Errorf
            ("unexpected session state " +:+ quote_plain "whatever" +:+ " in 201 response")))
  /\ Run (postEnv noLocation) (supplied false) testEndorsement
       testEndorsementMediaType world1
     = Returns (posted (supplied false) testEndorsement testEndorsementMediaType O world1)
         (None, Some (Errorf_w "cannot determine URI for the session resource: "
                        (errors_New "no Location header found in response")))
  /\ returned (Run (asyncEnv 3 [succeeded] None) (supplied false) testEndorsement
                 testEndorsementMediaType world1)
     = Some (Some succeeded, None).
Proof.
  assert (H1 : submitted (postEnv createdWhatever) (supplied false) testEndorsement
                 testEndorsementMediaType world1 (supplied false) O world1 createdWhatever)
    by script_submitted.
  assert (H2 : http.StatusCode createdWhatever = 201) by reflexivity.
  assert (H3 : sessionFromResponse (postEnv createdWhatever) createdWhatever
               = (Some whatever, None)) by (vm_compute; reflexivity).
  split; [exact H1|]. split; [exact H2|]. split; [exact H3|].
  split; [|split].
  - destruct (Run_async_guards (postEnv createdWhatever) (supplied false) testEndorsement
                testEndorsementMediaType world1 (supplied false) O world1
                createdWhatever whatever H1 H2 H3) as (H & _).
    apply H. discriminate.
  - destruct (Run_async_guards (postEnv noLocation) (supplied false) testEndorsement
                testEndorsementMediaType world1 (supplied false) O world1
                noLocation processing) as (_ & H & _);
      [script_submitted|reflexivity|vm_compute; reflexivity|].
    apply H; reflexivity.
  - destruct (Run_async_guards (asyncEnv 3 [succeeded] None) (supplied false)
                testEndorsement testEndorsementMediaType world1 (supplied false) O world1
                createdResponse processing) as (_ & _ & _ & H & _);
      [script_submitted|reflexivity|vm_compute; reflexivity|].
    destruct (H testSessionURI eq_refl eq_refl) as (w3 & r & Hpoll & Hret).
    rewrite Hret. vm_compute in Hpoll. injection Hpoll as _ <-. reflexivity.
Defined.

Lemma Run_delete_on_completion_witness :
  submitted deleteEnv (unsupplied true) testEndorsement testEndorsementMediaType world0
    (supplied true) O world1 createdResponse
  /\ http.StatusCode createdResponse = 201
  /\ sessionFromResponse deleteEnv createdResponse = (Some processing, None)
  /\ Status processing = "processing"
  /\ ExtractLocation deleteEnv createdResponse (SubmitURI (unsupplied true))
     = inr testSessionURI
  /\ exists w4,
       Run deleteEnv (unsupplied true) testEndorsement testEndorsementMediaType world0
       = Returns w4 (Some succeeded, None)
       /\ count is_delete (trace w4) = 1%nat
       /\ forall d,
            returned (Run (withDeleteReply deleteEnv d) (unsupplied true)
                        testEndorsement testEndorsementMediaType world0)
            = Some (Some succeeded, None).
Proof.
  assert (H1 : submitted deleteEnv (unsupplied true) testEndorsement
                 testEndorsementMediaType world0 (supplied true) O world1 createdResponse)
    by script_submitted.
  assert (H2 : http.StatusCode createdResponse = 201) by reflexivity.
  assert (H3 : sessionFromResponse deleteEnv createdResponse = (Some processing, None))
    by (vm_compute; reflexivity).
  assert (H4 : Status processing = "processing") by reflexivity.
  assert (H5 : ExtractLocation deleteEnv createdResponse (SubmitURI (unsupplied true))
               = inr testSessionURI) by (vm_compute; reflexivity).
  repeat (split; [assumption|]).
  destruct (Run_delete_on_completion deleteEnv (unsupplied true) testEndorsement
              testEndorsementMediaType world0 (supplied true) O world1 createdResponse
              processing testSessionURI H1 H2 H3 H4 H5)
    as (w3 & r & w4 & Hpoll & Hrun & _ & Hcount & Hany).
  vm_compute in Hpoll. injection Hpoll as _ <-.
  exists w4. split; [exact Hrun|]. split; [exact Hcount|exact Hany].
Defined.

Lemma Run_fresh_client_witness :
  SubmitURI (unsupplied false) <> EmptyString
  /\ Client (unsupplied false) = None
  /\ initError successEnv (unsupplied false) world0 = None
  /\ exists w' r evs w'' r' evs',
       Run successEnv (unsupplied false) testEndorsement testEndorsementMediaType world0
       = Returns w' r
       /\ heap w' = [plainClient]
       /\ trace w' =
            EvRequest (ReqPost O testEndorsement testEndorsementMediaType
                         sessionMediaType testSubmitURI) :: evs
       /\ allThrough O evs
       /\ Run successEnv (unsupplied false) testEndorsement testEndorsementMediaType w'
          = Returns w'' r'
       /\ heap w'' = [plainClient; plainClient]
       /\ trace w'' =
            (trace w' ++ EvRequest (ReqPost 1%nat testEndorsement testEndorsementMediaType
                                     sessionMediaType testSubmitURI) :: evs')%list
       /\ allThrough 1%nat evs'.
Proof.
  assert (H1 : SubmitURI (unsupplied false) <> EmptyString) by discriminate.
  assert (H2 : Client (unsupplied false) = None) by reflexivity.
  assert (H3 : initError successEnv (unsupplied false) world0 = None) by reflexivity.
  repeat (split; [assumption|]).
  exact (proj1 (Run_fresh_client successEnv (unsupplied false) testEndorsement
                  testEndorsementMediaType world0 H1) H2 H3).
Defined.

(** ** The further properties at work *)

Lemma Run_init_failure_witness :
  SubmitURI tlsConfig <> EmptyString
  /\ LoadCACerts (withCertError successEnv certError) (CACerts tlsConfig) = Some certError
  /\ Run (withCertError successEnv certError) tlsConfig testEndorsement
       testEndorsementMediaType world0
     = Returns world0 (None, Some certError).
Proof.
  assert (H1 : SubmitURI tlsConfig <> EmptyString) by discriminate.
  split; [exact H1|]. split; [reflexivity|].
  apply (Run_init_failure (withCertError successEnv certError));
    [exact H1|reflexivity..].
Defined.

Lemma Run_post_failure_witness :
  http_reply postFailEnv world1
    (ReqPost O testEndorsement testEndorsementMediaType sessionMediaType
       (SubmitURI (supplied false))) = inl noSuchHost
  /\ exists rerr,
       Run postFailEnv (supplied false) testEndorsement testEndorsementMediaType world1
       = Returns (posted (supplied false) testEndorsement testEndorsementMediaType O world1)
           (None, Some rerr)
       /\ Error rerr
          = "submit request failed: dial tcp: lookup veraison.example: no such host".
Proof.
  split; [reflexivity|].
  destruct (Run_post_failure postFailEnv (supplied false) testEndorsement
              testEndorsementMediaType world1 (supplied false) O world1 noSuchHost)
    as (rerr & Hrun & Hmsg & _); [discriminate|reflexivity|reflexivity|reflexivity|].
  exists rerr. split; assumption.
Defined.

Lemma Run_unexpected_status_code_witness :
  submitted (postEnv notFound) (supplied false) testEndorsement testEndorsementMediaType
    world1 (supplied false) O world1 notFound
  /\ Run (postEnv notFound) (supplied false) testEndorsement testEndorsementMediaType world1
     = Returns (posted (supplied false) testEndorsement testEndorsementMediaType O world1)
         (None, Some (fmt_Errorf "unexpected HTTP response code 404")).
Proof.
  assert (H1 : submitted (postEnv notFound) (supplied false) testEndorsement
                 testEndorsementMediaType world1 (supplied false) O world1 notFound)
    by script_submitted.
  split; [exact H1|].
  apply (Run_unexpected_status_code (postEnv notFound) _ _ _ _ _ _ _ _ H1);
    vm_compute; discriminate.
Defined.

Lemma Run_decode_failure_witness :
  submitted (postEnv emptyResponse) (supplied false) testEndorsement
    testEndorsementMediaType world1 (supplied false) O world1 emptyResponse
  /\ Run (postEnv emptyResponse) (supplied false) testEndorsement
       testEndorsementMediaType world1
     = Returns (posted (supplied false) testEndorsement testEndorsementMediaType O world1)
         (None, Some (errors_New "empty body"))
  /\ Run (postEnv invalidJSON) (supplied false) testEndorsement
       testEndorsementMediaType world1
     = Returns (posted (supplied false) testEndorsement testEndorsementMediaType O world1)
         (None, Some (Errorf_w "failure decoding session resource: "
            (errors_New "invalid character 'i' looking for beginning of value"))).
Proof.
  assert (H1 : submitted (postEnv emptyResponse) (supplied false) testEndorsement
                 testEndorsementMediaType world1 (supplied false) O world1 emptyResponse)
    by script_submitted.
  split; [exact H1|]. split.
  - destruct (Run_decode_failure (postEnv emptyResponse) _ _ _ _ _ _ _ _ H1
                (or_introl eq_refl)) as (_ & H).
    apply H. reflexivity.
  - destruct (Run_decode_failure (postEnv invalidJSON) (supplied false) testEndorsement
                testEndorsementMediaType world1 (supplied false) O world1 invalidJSON)
      as (H & _); [script_submitted|left; reflexivity|].
    apply H. reflexivity.
Defined.

Lemma Run_only_post_unless_created_witness :
  submitted (syncEnv succeeded) (supplied true) testEndorsement testEndorsementMediaType
    world1 (supplied true) O world1 (sessionResponse 200 None succeeded)
  /\ DeleteSession (supplied true) = true
  /\ worldOf (Run (syncEnv succeeded) (supplied true) testEndorsement
                testEndorsementMediaType world1)
     = posted (supplied true) testEndorsement testEndorsementMediaType O world1
  /\ count is_delete
       (trace (worldOf (Run (syncEnv succeeded) (supplied true) testEndorsement
                          testEndorsementMediaType world1))) = O.
Proof.
  assert (H1 : submitted (syncEnv succeeded) (supplied true) testEndorsement
                 testEndorsementMediaType world1 (supplied true) O world1
                 (sessionResponse 200 None succeeded)) by script_submitted.
  split; [exact H1|]. split; [reflexivity|].
  destruct (Run_only_post_unless_created (syncEnv succeeded) _ _ _ _ _ _ _ _ H1)
    as (Hw & _ & Hd); [vm_compute; discriminate|].
  split; [exact Hw|exact Hd].
Defined.

Lemma Run_post_request_witness :
  SubmitURI (unsupplied false) <> EmptyString
  /\ initError successEnv (unsupplied false) world0 = None
  /\ exists w' r rest,
       Run successEnv (unsupplied false) testEndorsement testEndorsementMediaType world0
       = Returns w' r
       /\ trace w' =
            EvRequest (ReqPost O testEndorsement "application/corim+cbor"
                         "application/vnd.veraison.provisioning-session+json"
                         testSubmitURI) :: rest
       /\ count is_post rest = O.
Proof.
  assert (H1 : SubmitURI (unsupplied false) <> EmptyString) by discriminate.
  assert (H2 : initError successEnv (unsupplied false) world0 = None) by reflexivity.
  split; [exact H1|]. split; [exact H2|].
  exact (Run_post_request successEnv (unsupplied false) testEndorsement
           testEndorsementMediaType world0 H1 H2).
Defined.

Lemma poll_terminal_statuses_witness :
  Client (supplied false) = Some O
  /\ pollForSubmissionCompletion (asyncEnv 3 [processing; tooLong] None)
       (supplied false) testSessionURI world1
     = Returns
         (emit (EvRequest (ReqGet O testSessionURI))
            (idle (asyncEnv 3 [processing; tooLong] None) O testSessionURI 1 world1))
         (None, Some (errors_New "submission failed: taking too long"))
  /\ pollForSubmissionCompletion (asyncEnv 3 [whatever] None)
       (supplied false) testSessionURI world1
     = Returns (emit (EvRequest (ReqGet O testSessionURI)) world1)
         (None, Some (fmt_Errorf
            ("unexpected session state " +:+ quote_plain "whatever" +:+ " in 200 response"))).
Proof.
  split; [reflexivity|]. split.
  - destruct (poll_terminal_statuses (asyncEnv 3 [processing; tooLong] None)
                (supplied false) O testSessionURI world1 1%nat tooLong) as (H & _).
    + reflexivity.
    + change (1 < 2)%nat. lia.
    + intros i Hi. destruct i as [|i]; [|lia].
      exists processing; split; [script_get processing|reflexivity].
    + script_get tooLong.
    + apply H. reflexivity.
  - destruct (poll_terminal_statuses (asyncEnv 3 [whatever] None)
                (supplied false) O testSessionURI world1 O whatever) as (_ & H).
    + reflexivity.
    + change (0 < 2)%nat. lia.
    + intros i Hi. lia.
    + script_get whatever.
    + apply H; discriminate.
Defined.

Lemma poll_shape_witness :
  Client (supplied false) = Some O
  /\ exists k w' r,
       pollForSubmissionCompletion (asyncEnv 3 [processing; succeeded] None)
         (supplied false) testSessionURI world1 = Returns w' r
       /\ count is_sleep (trace w') = k
       /\ r = (Some succeeded, None).
Proof.
  split; [reflexivity|].
  destruct (poll_shape (asyncEnv 3 [processing; succeeded] None)
              (supplied false) O testSessionURI world1 eq_refl)
    as (k & w' & r & Hrun & _ & Hs & _).
  exists k, w', r. split; [exact Hrun|]. split; [exact Hs|].
  vm_compute in Hrun. injection Hrun as _ <-. reflexivity.
Defined.

Lemma SetClient_contract_witness :
  heap world1 !! O = Some plainClient
  /\ exists w',
       SetClient authedConfig (Some O) world1
       = Returns w' (set_Client authedConfig (Some O), None)
       /\ authAt w' O = Some (Some testAuth)
       /\ transportAt w' O = Some http.PlainTransport.
Proof.
  split; [reflexivity|].
  destruct (SetClient_contract authedConfig world1) as (_ & H).
  destruct (H O plainClient eq_refl) as (w' & Hset & Ha & Ht & _).
  exists w'. repeat split; assumption.
Defined.

Lemma SetAuth_contract_witness :
  Client (supplied false) = Some O
  /\ heap world2 !! O = Some ownAuthClient
  /\ exists w',
       SetAuth (supplied false) None world2 = Returns w' (set_Auth (supplied false) None)
       /\ authAt w' O = Some None.
Proof.
  split; [reflexivity|]. split; [reflexivity|].
  destruct (SetAuth_contract (supplied false) None world2) as (_ & H).
  destruct (H O ownAuthClient eq_refl eq_refl) as (w' & Hset & Ha & _).
  exists w'. split; assumption.
Defined.

Lemma SetClient_SetAuth_order_witness :
  Client (unsupplied false) = None
  /\ heap world2 !! O = Some ownAuthClient
  /\ exists w1 w2,
       clientThenAuth (unsupplied false) O None world2
       = Returns w1 (set_Auth (set_Client (unsupplied false) (Some O)) None)
       /\ authAt w1 O = Some None
       /\ authThenClient (unsupplied false) O None world2
          = Returns w2 (set_Client (set_Auth (unsupplied false) None) (Some O))
       /\ authAt w2 O = Some (Some (Authenticator 7)).
Proof.
  split; [reflexivity|]. split; [reflexivity|].
  destruct (SetClient_SetAuth_order (unsupplied false) O ownAuthClient world2
              eq_refl eq_refl) as (_ & H).
  exact (H eq_refl).
Defined.

Lemma initClient_once_witness :
  initClient successEnv (unsupplied false) world0 = Returns world1 (supplied false, None)
  /\ exists client,
       Client (supplied false) = Some client
       /\ initClient successEnv (supplied false) world1 = Returns world1 (supplied false, None)
       /\ exists w' r evs,
            Run successEnv (supplied false) testEndorsement testEndorsementMediaType world1
            = Returns w' r
            /\ heap w' = heap world1
            /\ trace w' = (trace world1 ++ evs)%list
            /\ allThrough client evs.
Proof.
  assert (H1 : initClient successEnv (unsupplied false) world0
               = Returns world1 (supplied false, None)) by reflexivity.
  split; [exact H1|].
  exact (initClient_once successEnv (unsupplied false) (supplied false) world0 world1
           testEndorsement testEndorsementMediaType H1).
Defined.

Lemma SetSubmitURI_selects_transport_witness :
  url_Parse (withCertError successEnv certError) (SubmitURI tlsConfig)
  = inr {| Scheme := "https" |}
  /\ exists cfg',
       SetSubmitURI (withCertError successEnv certError)
         (SetIsInsecure tlsConfig true) (SubmitURI tlsConfig) = (cfg', None)
       /\ UseTLS cfg' = true
       /\ initClient (withCertError successEnv certError) cfg' world0
          = Returns {| heap := [{| common.HTTPClient := http.InsecureTLSTransport;
                                   common.Auth := None |}];
                       trace := [] |}
              (set_Client cfg' (Some O), None).
Proof.
  split; [reflexivity|].
  destruct (SetSubmitURI_selects_transport (withCertError successEnv certError)
              (SetIsInsecure tlsConfig true) (SubmitURI tlsConfig)
              {| Scheme := "https" |} world0 eq_refl eq_refl eq_refl)
    as (cfg' & Hset & _ & Hins & _).
  exists cfg'. split; [exact Hset|]. split.
  - vm_compute in Hset. injection Hset as <-. reflexivity.
  - apply Hins; reflexivity.
Defined.

Lemma SetSubmitURI_then_check_witness :
  (forall u, url_Parse successEnv EmptyString = inr u -> IsAbs u = false)
  /\ SetSubmitURI successEnv (config EmptyString None false) testSubmitURI
     = (config testSubmitURI None false, None)
  /\ check (config testSubmitURI None false) = None.
Proof.
  assert (H1 : forall u, url_Parse successEnv EmptyString = inr u -> IsAbs u = false)
    by (intros u [= <-]; reflexivity).
  assert (H2 : SetSubmitURI successEnv (config EmptyString None false) testSubmitURI
               = (config testSubmitURI None false, None)) by reflexivity.
  split; [exact H1|]. split; [exact H2|].
  apply (SetSubmitURI_then_check successEnv _ _ _ H1 H2).
Defined.

Lemma flags_without_effect_witness :
  UseTLS (unsupplied false) = false
  /\ heapAfterInit successEnv (SetIsInsecure (unsupplied false) true) world0
     = heapAfterInit successEnv (unsupplied false) world0
  /\ heapAfterInit successEnv (SetCerts (unsupplied false) testCertPaths) world0
     = heapAfterInit successEnv (unsupplied false) world0.
Proof.
  split; [reflexivity|].
  destruct (flags_without_effect successEnv (unsupplied false) true testCertPaths world0)
    as (H1 & H2).
  split; [apply H1; reflexivity|apply H2; left; reflexivity].
Defined.

Lemma Run_async_success_witness :
  submitted deleteEnv (unsupplied true) testEndorsement testEndorsementMediaType world0
    (supplied true) O world1 createdResponse
  /\ Run deleteEnv (unsupplied true) testEndorsement testEndorsementMediaType world0
     = Returns
         (afterCleanup deleteEnv (unsupplied true) O testSessionURI
            (emit (EvRequest (ReqGet O testSessionURI))
               (idle deleteEnv O testSessionURI 1
                  (posted (unsupplied true) testEndorsement testEndorsementMediaType
                     O world1))))
         (Some succeeded, None).
Proof.
  assert (H1 : submitted deleteEnv (unsupplied true) testEndorsement
                 testEndorsementMediaType world0 (supplied true) O world1 createdResponse)
    by script_submitted.
  split; [exact H1|].
  apply (Run_async_success deleteEnv _ _ _ _ _ _ _ _ processing succeeded testSessionURI
           1%nat H1).
  - reflexivity.
  - vm_compute; reflexivity.
  - reflexivity.
  - vm_compute; reflexivity.
  - change (1 < 2)%nat. lia.
  - intros i Hi. destruct i as [|i]; [|lia].
    exists processing; split; [script_get processing|reflexivity].
  - script_get succeeded.
  - reflexivity.
Defined.

Lemma Run_async_timeout_witness :
  submitted (asyncEnv 3 [processing; processing; processing] None) (supplied true)
    testEndorsement testEndorsementMediaType world1 (supplied true) O world1 createdResponse
  /\ Run (asyncEnv 3 [processing; processing; processing] None) (supplied true)
       testEndorsement testEndorsementMediaType world1
     = Returns
         (afterCleanup (asyncEnv 3 [processing; processing; processing] None)
            (supplied true) O testSessionURI
            (idle (asyncEnv 3 [processing; processing; processing] None) O
               testSessionURI 2
               (posted (supplied true) testEndorsement testEndorsementMediaType O world1)))
         (None, Some (fmt_Errorf
            "polling attempts exhausted, session resource state still not complete")).
Proof.
  assert (H1 : submitted (asyncEnv 3 [processing; processing; processing] None)
                 (supplied true) testEndorsement testEndorsementMediaType world1
                 (supplied true) O world1 createdResponse) by script_submitted.
  split; [exact H1|].
  apply (Run_async_timeout (asyncEnv 3 [processing; processing; processing] None)
           _ _ _ _ _ _ _ _ processing testSessionURI H1).
  - reflexivity.
  - vm_compute; reflexivity.
  - reflexivity.
  - vm_compute; reflexivity.
  - intros i Hi. change (i < 2)%nat in Hi.
    destruct i as [|[|i]]; [| |lia];
      (exists processing; split; [script_get processing|reflexivity]).
Defined.
